(** * Oasis Hub setup sequencer ([scripts/setup.py])

    A shallow embedding of [run_command] and [main] of [scripts/setup.py]
    and the properties of the setup sequencer: the aggregation of the
    per-step outcomes, the fixed order of units and steps, the skip of a
    unit without manifest, the conversion of launch failures and the exit
    status of the script.

    Modelling conventions.
    - The host (file system and process table) is an abstract state
      [World]; [Path.exists] reads it, [subprocess.run] reads and changes
      it.  A command may fail, may not be launchable, and may create or
      delete any file.
    - Python exceptions follow the class hierarchy the source relies on:
      [Exception] is the class [except Exception] catches, [BaseException]
      adds [SystemExit], which [sys.exit] raises and which is not an
      [Exception].  Signals delivered from outside the program (an
      interrupt from the keyboard, a kill) are not part of the model.
    - Python values that reach [&=] and [if] are [PyBool] or [PyInt], with
      Python's [&] and truth value on them.
    - The first part takes a host that answers: [print] appends its line
      to the trace and does not fail, [Path.exists] answers a boolean, and
      [subprocess.run] returns the completed process or raises.  The
      second part, [Fallible], is the same code on a host that may refuse:
      [print] and [Path.exists] may raise, and [subprocess.run] may raise
      after the process has exited, when its output is not text.  What
      depends on exceptions leaving [run_command] or [main], and on the
      exit code of a step whose output was rejected, is stated there; on
      a host that answers the two parts agree ([simulates_main]). *)

From Stdlib Require Import List String Ascii ZArith Bool.
Import ListNotations.
Open Scope string_scope.

(** ** Paths ([pathlib.Path]) *)

(** A path is the list of its components; [p / name] appends one. *)
Definition path := list string.

Definition path_join (p : path) (name : string) : path := (p ++ [name])%list.

Notation "p // name" := (path_join p name) (at level 40, left associativity).

(** ** Python values *)

Inductive pyval :=
| PyBool (b : bool)
| PyInt (z : Z).

(** [int(v)]: [bool] is a subclass of [int], [True] is 1 and [False] 0. *)
Definition py_int (v : pyval) : Z :=
  match v with
  | PyBool true => 1
  | PyBool false => 0
  | PyInt z => z
  end.

(** [a & b]: [bool.__and__] answers a [bool] when both operands are
    [bool]; otherwise the operands are taken as [int]s and the bitwise
    conjunction is an [int]. *)
Definition py_and (a b : pyval) : pyval :=
  match a, b with
  | PyBool x, PyBool y => PyBool (x && y)
  | _, _ => PyInt (Z.land (py_int a) (py_int b))
  end.

(** Truth value, as [if v:] tests it. *)
Definition py_truthy (v : pyval) : bool :=
  match v with
  | PyBool b => b
  | PyInt z => negb (z =? 0)%Z
  end.

(** ** Exceptions *)

(** The classes [subprocess.run] is documented to raise, and any other
    class derived from [Exception], by its name. *)
Inductive exception_class :=
| OSError
| ValueError
| SubprocessError
| ExceptionSubclass (name : string).

(** An instance of [Exception]: its class and [str(e)]. *)
Record Exception := mkException {
  exc_class : exception_class;
  exc_str : string
}.

Inductive BaseException :=
| IsException (e : Exception)
| SystemExit (code : Z).

(** ** Processes ([subprocess]) *)

(** [subprocess.CompletedProcess] with [capture_output=True, text=True]. *)
Record CompletedProcess := mkCompleted {
  returncode : Z;
  stdout : string;
  stderr : string
}.

(** What a call of [subprocess.run] does: it returns the completed
    process, or it raises an exception.  The first part reads every
    exception as a launch that failed; [Fallible.run_result] tells a
    process that could not be created from one whose output was
    rejected after it exited. *)
Inductive spawn_result :=
| Completed (cp : CompletedProcess)
| LaunchFailed (e : Exception).

(** ** Trace of a run *)

Inductive event :=
| EvPrint (line : string)
| EvRun (cmd : string) (cwd : option path) (r : spawn_result).

Definition LF : string := String "010"%char EmptyString.

(** ** Computations: state and exceptions *)

(** A statement runs in a state and either completes with a value or
    raises; the state it leaves is kept in both cases. *)
Inductive outcome (A : Type) :=
| Ret (a : A)
| Raise (e : BaseException).

Arguments Ret {A} a.
Arguments Raise {A} e.

Definition M (S A : Type) : Type := S -> outcome A * S.

Definition ret {S A} (a : A) : M S A := fun s => (Ret a, s).

Definition raise {S A} (e : BaseException) : M S A := fun s => (Raise e, s).

Definition bind {S A B} (c : M S A) (k : A -> M S B) : M S B :=
  fun s =>
    match c s with
    | (Ret a, s') => k a s'
    | (Raise e, s') => (Raise e, s')
    end.

Notation "x <- c ;; k" := (bind c (fun x => k))
  (at level 61, c at next level, right associativity).
Notation "c ;; k" := (bind c (fun _ => k))
  (at level 61, right associativity).

(** [try: body  except Exception as e: handler e].  Only instances of
    [Exception] are handled; any other [BaseException] propagates. *)
Definition try_except_Exception {S A}
    (body : M S A) (handler : Exception -> M S A) : M S A :=
  fun s =>
    match body s with
    | (Ret a, s') => (Ret a, s')
    | (Raise (IsException e), s') => handler e s'
    | (Raise e, s') => (Raise e, s')
    end.

(** The exit status the interpreter gives the script: 0 when the module
    body completes, the code of an uncaught [SystemExit], 1 (after the
    traceback) for any other uncaught exception. *)
Definition exit_status {A} (r : outcome A) : Z :=
  match r with
  | Ret _ => 0
  | Raise (SystemExit code) => code
  | Raise (IsException _) => 1
  end.

(** ** The host *)

(** [path_exists w p] is [p.exists()] on host [w]; [os_run w cmd cwd] is
    what launching [cmd] through the shell with working directory [cwd]
    does on [w], together with the host it leaves. *)
Class Host := {
  World : Type;
  path_exists : World -> path -> bool;
  os_run : World -> string -> option path -> spawn_result * World
}.

Section Sequencer.

Context {H : Host}.

Record State := mkState {
  world : World;
  trace : list event
}.

Definition emit (ev : event) (s : State) : State :=
  mkState (world s) (trace s ++ [ev]).

(** [print(line)] *)
Definition print (line : string) : M State unit :=
  fun s => (Ret tt, emit (EvPrint line) s).

(** [p.exists()] *)
Definition exists_ (p : path) : M State bool :=
  fun s => (Ret (path_exists (world s) p), s).

(** [subprocess.run(cmd, shell=True, cwd=cwd, capture_output=True,
    text=True)] *)
Definition subprocess_run (cmd : string) (cwd : option path)
    : M State CompletedProcess :=
  fun s =>
    let (r, w') := os_run (world s) cmd cwd in
    let s' := mkState w' (trace s ++ [EvRun cmd cwd r]) in
    match r with
    | Completed cp => (Ret cp, s')
    | LaunchFailed e => (Raise (IsException e), s')
    end.

(** [sys.exit(code)] *)
Definition sys_exit {A} (code : Z) : M State A := raise (SystemExit code).

(** *** [run_command] (setup.py, lines 10-30) *)

Definition run_command (cmd : string) (cwd : option path) : M State pyval :=
  try_except_Exception
    (print ("Running: " ++ cmd) ;;
     result <- subprocess_run cmd cwd ;;
     if (returncode result =? 0)%Z then
       print ("✅ " ++ cmd) ;;
       ret (PyBool true)
     else
       print ("❌ " ++ cmd) ;;
       print ("Error: " ++ stderr result) ;;
       ret (PyBool false))
    (fun e =>
       print ("❌ " ++ cmd ++ " - Exception: " ++ exc_str e) ;;
       ret (PyBool false)).

(** *** [main] (setup.py, lines 32-73) *)

(** [d.exists() and (d / "package.json").exists()]: the manifest is
    looked for only when the directory exists. *)
Definition manifest_check (dir : path) : M State bool :=
  d <- exists_ dir ;;
  if d then exists_ (dir // "package.json") else ret false.

(** Lines 42-53: the backend unit, entered with the current value of
    [success] and answering its new value. *)
Definition backend_unit (project_root : path) (success : pyval)
    : M State pyval :=
  let backend_dir := project_root // "backend" in
  present <- manifest_check backend_dir ;;
  if present then
    print (LF ++ "📦 Installing backend dependencies...") ;;
    r <- run_command "npm install" (Some backend_dir) ;;
    let success := py_and success r in
    print (LF ++ "🧪 Running backend tests...") ;;
    r <- run_command "npm test -- --run" (Some backend_dir) ;;
    let success := py_and success r in
    print (LF ++ "🔨 Building backend...") ;;
    r <- run_command "npm run build" (Some backend_dir) ;;
    let success := py_and success r in
    ret success
  else
    print "⚠️  Backend directory not found or missing package.json" ;;
    ret success.

(** Lines 55-63: the frontend unit. *)
Definition frontend_unit (project_root : path) (success : pyval)
    : M State pyval :=
  let frontend_dir := project_root // "frontend" in
  present <- manifest_check frontend_dir ;;
  if present then
    print (LF ++ "🎨 Installing frontend dependencies...") ;;
    r <- run_command "npm install" (Some frontend_dir) ;;
    let success := py_and success r in
    print (LF ++ "🔨 Building frontend...") ;;
    r <- run_command "npm run build" (Some frontend_dir) ;;
    let success := py_and success r in
    ret success
  else
    print "⚠️  Frontend directory not found or missing package.json" ;;
    ret success.

(** Lines 34-63: the banner, [success = True] and the two units in
    their order; the value is [success] as line 65 tests it. *)
Definition setup_units (project_root : path) : M State pyval :=
  print "🚀 Setting up Oasis Hub development environment..." ;;
  let success := PyBool true in
  success <- backend_unit project_root success ;;
  success <- frontend_unit project_root success ;;
  ret success.

(** Lines 65-73: the closing report. *)
Definition report (success : pyval) : M State unit :=
  if py_truthy success then
    print (LF ++ "🎉 Setup completed successfully!") ;;
    print (LF ++ "📖 Next steps:") ;;
    print "1. Backend: cd backend && npm run dev" ;;
    print "2. Frontend: cd frontend && npm run dev" ;;
    print "3. Configure .env files for optional integrations"
  else
    print (LF ++ "❌ Setup encountered some errors") ;;
    sys_exit 1.

Definition main (project_root : path) : M State unit :=
  success <- setup_units project_root ;;
  report success.

(** A run of the script on host [w]: [main()] from the empty trace. *)
Definition initial (w : World) : State := mkState w [].

Definition run_script (project_root : path) (w : World)
    : outcome unit * State :=
  main project_root (initial w).

(** *** Notions the properties are stated with *)

(** A unit's manifest is present on [w]: its directory exists and holds
    a [package.json]. *)
Definition manifest_present (w : World) (dir : path) : bool :=
  path_exists w dir && path_exists w (dir // "package.json").

(** The host after the commands [steps] ran on it in that order. *)
Fixpoint host_after (w : World) (steps : list (string * option path))
    : World :=
  match steps with
  | [] => w
  | (cmd, cwd) :: rest => host_after (snd (os_run w cmd cwd)) rest
  end.

End Sequencer.

(** A step: a command line and its working directory. *)
Definition step : Type := string * option path.

(** The steps of the two units, in the order [main] writes them. *)
Definition backend_steps (project_root : path) : list step :=
  let backend_dir := project_root // "backend" in
  [ ("npm install", Some backend_dir);
    ("npm test -- --run", Some backend_dir);
    ("npm run build", Some backend_dir) ].

Definition frontend_steps (project_root : path) : list step :=
  let frontend_dir := project_root // "frontend" in
  [ ("npm install", Some frontend_dir);
    ("npm run build", Some frontend_dir) ].

Definition steps_if (present : bool) (steps : list step) : list step :=
  if present then steps else [].

(** The headings [main] prints before the steps of a unit. *)
Definition backend_plan (project_root : path) : list (string * step) :=
  combine
    [ LF ++ "📦 Installing backend dependencies...";
      LF ++ "🧪 Running backend tests...";
      LF ++ "🔨 Building backend..." ]
    (backend_steps project_root).

Definition frontend_plan (project_root : path) : list (string * step) :=
  combine
    [ LF ++ "🎨 Installing frontend dependencies...";
      LF ++ "🔨 Building frontend..." ]
    (frontend_steps project_root).

(** Manifest presence as [main] observes it: the backend on the host the
    script starts on, the frontend on the host the backend unit leaves. *)
Definition backend_present `{Host} (project_root : path) (w : World) : bool :=
  manifest_present w (project_root // "backend").

Definition frontend_present `{Host} (project_root : path) (w : World) : bool :=
  manifest_present
    (host_after w (steps_if (backend_present project_root w)
                            (backend_steps project_root)))
    (project_root // "frontend").

(** The steps a trace launched, and what became of each, oldest first. *)
Fixpoint launched (t : list event) : list step :=
  match t with
  | [] => []
  | EvRun cmd cwd _ :: rest => (cmd, cwd) :: launched rest
  | EvPrint _ :: rest => launched rest
  end.

Fixpoint results (t : list event) : list spawn_result :=
  match t with
  | [] => []
  | EvRun _ _ r :: rest => r :: results rest
  | EvPrint _ :: rest => results rest
  end.

Fixpoint printed (t : list event) : list string :=
  match t with
  | [] => []
  | EvPrint line :: rest => line :: printed rest
  | EvRun _ _ _ :: rest => printed rest
  end.

(** A step succeeded: its process ran and exited with code zero. *)
Definition step_succeeded (r : spawn_result) : bool :=
  match r with
  | Completed cp => (returncode cp =? 0)%Z
  | LaunchFailed _ => false
  end.

(** What one call of [run_command] adds to the trace. *)
Definition run_command_events (cmd : string) (cwd : option path)
    (r : spawn_result) : list event :=
  [EvPrint ("Running: " ++ cmd); EvRun cmd cwd r] ++
  match r with
  | Completed cp =>
      if (returncode cp =? 0)%Z then [EvPrint ("✅ " ++ cmd)]
      else [EvPrint ("❌ " ++ cmd); EvPrint ("Error: " ++ stderr cp)]
  | LaunchFailed e =>
      [EvPrint ("❌ " ++ cmd ++ " - Exception: " ++ exc_str e)]
  end.

(** The accumulation of [main] over the values its steps returned:
    [success = True], then [success &= v] for each. *)
Definition accumulate (returned : list pyval) : pyval :=
  fold_left py_and returned (PyBool true).

(** The aggregate as the specification words it: the logical AND,
    starting from true, of the step outcomes. *)
Definition overallSuccess_fold (succeeded : list bool) : bool :=
  fold_right andb true succeeded.

(** The lines of the closing report. *)
Definition guidance_block : list string :=
  [ LF ++ "🎉 Setup completed successfully!";
    LF ++ "📖 Next steps:";
    "1. Backend: cd backend && npm run dev";
    "2. Frontend: cd frontend && npm run dev";
    "3. Configure .env files for optional integrations" ].

Definition error_summary : string := LF ++ "❌ Setup encountered some errors".

Definition backend_warning : string :=
  "⚠️  Backend directory not found or missing package.json".

Definition frontend_warning : string :=
  "⚠️  Frontend directory not found or missing package.json".

(** The two units, to state what holds of each. *)
Inductive unit_name :=
| Backend
| Frontend.

Definition unit_dir (project_root : path) (u : unit_name) : path :=
  match u with
  | Backend => project_root // "backend"
  | Frontend => project_root // "frontend"
  end.

Definition unit_steps (project_root : path) (u : unit_name) : list step :=
  match u with
  | Backend => backend_steps project_root
  | Frontend => frontend_steps project_root
  end.

Definition unit_warning (u : unit_name) : string :=
  match u with
  | Backend => backend_warning
  | Frontend => frontend_warning
  end.

Definition unit_present `{Host} (project_root : path) (w : World)
    (u : unit_name) : bool :=
  match u with
  | Backend => backend_present project_root w
  | Frontend => frontend_present project_root w
  end.

(** The block of [main] that handles unit [u]. *)
Definition run_unit `{Host} (project_root : path) (u : unit_name)
    (success : pyval) : M State pyval :=
  match u with
  | Backend => backend_unit project_root success
  | Frontend => frontend_unit project_root success
  end.

(** A line of the closing report. *)
Definition report_line (line : string) : bool :=
  existsb (String.eqb line) (error_summary :: guidance_block).

Definition no_report (lines : list string) : Prop :=
  Forall (fun line => report_line line = false) lines.

(** ** A scripted host, to run the model on *)

(** The files that exist and the results of the commands still to be
    launched; a command launched past the end of the script exits 0.
    A scripted command may also replace the set of files. *)
Record Scripted := mkScripted {
  files : list path;
  script : list (spawn_result * option (list path))
}.

Fixpoint path_eqb (p q : path) : bool :=
  match p, q with
  | [], [] => true
  | a :: p', b :: q' => String.eqb a b && path_eqb p' q'
  | _, _ => false
  end.

Definition scripted_exists (w : Scripted) (p : path) : bool :=
  existsb (path_eqb p) (files w).

Definition scripted_run (w : Scripted) (cmd : string) (cwd : option path)
    : spawn_result * Scripted :=
  match script w with
  | [] => (Completed (mkCompleted 0 "" ""), w)
  | (r, None) :: rest => (r, mkScripted (files w) rest)
  | (r, Some fs) :: rest => (r, mkScripted fs rest)
  end.

Definition scripted_host : Host :=
  {| World := Scripted;
     path_exists := scripted_exists;
     os_run := scripted_run |}.

Definition exits (code : Z) (err : string) : spawn_result * option (list path) :=
  (Completed (mkCompleted code "" err), None).

Definition both_units : list path :=
  [ ["repo"; "backend"]; ["repo"; "backend"; "package.json"];
    ["repo"; "frontend"]; ["repo"; "frontend"; "package.json"] ].

Definition frontend_only : list path :=
  [ ["repo"; "backend"];
    ["repo"; "frontend"]; ["repo"; "frontend"; "package.json"] ].

Definition no_shell : spawn_result * option (list path) :=
  (LaunchFailed (mkException OSError "[Errno 2] No such file or directory"),
   None).

(** Both units present and every command exits 0. *)
Definition host_all_pass : Scripted := mkScripted both_units [].

(** Both units present, the backend install exits 1, the rest exits 0. *)
Definition host_install_fails : Scripted :=
  mkScripted both_units [exits 1 "npm ERR! code E404"].

(** Both units present, the last command (the frontend build) exits 2. *)
Definition host_last_fails : Scripted :=
  mkScripted both_units
    [exits 0 ""; exits 0 ""; exits 0 ""; exits 0 ""; exits 2 "build failed"].

(** No backend manifest, every command exits 0. *)
Definition host_frontend_only : Scripted := mkScripted frontend_only [].

(** Neither unit is there. *)
Definition host_empty : Scripted := mkScripted [] [].

(** Both units present when the script starts; the backend install
    removes the frontend's manifest. *)
Definition host_install_removes_frontend : Scripted :=
  mkScripted both_units
    [ (Completed (mkCompleted 0 "" ""),
       Some [ ["repo"; "backend"]; ["repo"; "backend"; "package.json"];
              ["repo"; "frontend"] ]) ].

(** ** The trace of a run, as a function of the host *)

Section Traces.

Context {H : Host}.

(** Heading, then [run_command], for each entry of a plan. *)
Fixpoint plan_trace (w : World) (plan : list (string * step))
    : list event * World :=
  match plan with
  | [] => ([], w)
  | (heading, (cmd, cwd)) :: rest =>
      let (r, w1) := os_run w cmd cwd in
      let (evs, w2) := plan_trace w1 rest in
      (EvPrint heading :: run_command_events cmd cwd r ++ evs, w2)
  end.

Definition unit_trace (present : bool) (warning : string)
    (plan : list (string * step)) (w : World) : list event * World :=
  if present then plan_trace w plan else ([EvPrint warning], w).

Definition setup_trace (project_root : path) (w : World)
    : list event * World :=
  let (t1, w1) :=
    unit_trace (manifest_present w (project_root // "backend"))
               backend_warning (backend_plan project_root) w in
  let (t2, w2) :=
    unit_trace (manifest_present w1 (project_root // "frontend"))
               frontend_warning (frontend_plan project_root) w1 in
  (EvPrint "🚀 Setting up Oasis Hub development environment..." :: t1 ++ t2,
   w2).

End Traces.

(** The value [run_command] returns for a result. *)
Definition returned (r : spawn_result) : pyval := PyBool (step_succeeded r).

(** The status line [run_command] prints once the step is over. *)
Definition status_line (cmd : string) (r : spawn_result) : string :=
  match r with
  | Completed cp =>
      if (returncode cp =? 0)%Z then "✅ " ++ cmd else "❌ " ++ cmd
  | LaunchFailed e => "❌ " ++ cmd ++ " - Exception: " ++ exc_str e
  end.

(** [t] holds the three events one after the other. *)
Definition in_a_row (e1 e2 e3 : event) (t : list event) : Prop :=
  exists before after : list event,
    t = (before ++ e1 :: e2 :: e3 :: after)%list.

(** One of the two warnings of a skipped unit. *)
Definition warning_line (line : string) : bool :=
  String.eqb line backend_warning || String.eqb line frontend_warning.

Definition no_warning (lines : list string) : Prop :=
  Forall (fun line => warning_line line = false) lines.

Definition banner : string :=
  "🚀 Setting up Oasis Hub development environment...".

(** * A host that may refuse

    The definitions above take a host on which [print] and [Path.exists]
    always answer and on which [subprocess.run] raises only when the
    process cannot be created.  Python promises none of this: [print]
    raises when the console refuses the text ([UnicodeEncodeError] on a
    console that cannot encode it, [OSError] on a closed pipe),
    [Path.exists] raises when the file system refuses the check
    ([PermissionError]), and with [text=True] [subprocess.run] raises
    [UnicodeDecodeError] after the process has exited when its output is
    not text.  [Fallible] is the same code on such a host. *)

Module Fallible.

(** What a call of [subprocess.run] does: it returns the completed
    process; or the process could not be created; or the process ran and
    exited with [code], and decoding what it wrote raised. *)
Inductive run_result :=
| Returned (cp : CompletedProcess)
| NotLaunched (e : Exception)
| OutputRejected (code : Z) (e : Exception).

(** The exit code of the process, when there was one. *)
Definition exit_code (r : run_result) : option Z :=
  match r with
  | Returned cp => Some (returncode cp)
  | NotLaunched _ => None
  | OutputRejected code _ => Some code
  end.

(** The exception [subprocess.run] raised, if it raised. *)
Definition raised (r : run_result) : option Exception :=
  match r with
  | Returned _ => None
  | NotLaunched e => Some e
  | OutputRejected _ e => Some e
  end.

(** [subprocess.run] returned, and the exit code is zero. *)
Definition succeeded (r : run_result) : bool :=
  match r with
  | Returned cp => (returncode cp =? 0)%Z
  | _ => false
  end.

(** [console_rejects w line] is the exception [print(line)] raises on
    [w], if any; [fs_exists w p] is what [p.exists()] answers or raises;
    [proc_run w cmd cwd] is what [subprocess.run] does and the host it
    leaves. *)
Class FHost := {
  FWorld : Type;
  console_rejects : FWorld -> string -> option Exception;
  fs_exists : FWorld -> path -> Exception + bool;
  proc_run : FWorld -> string -> option path -> run_result * FWorld
}.

Inductive event :=
| EvPrint (line : string)
| EvPrintRaised (line : string) (e : Exception)
| EvRun (cmd : string) (cwd : option path) (r : run_result).

Section Sequencer.

Context {F : FHost}.

Record State := mkState {
  world : FWorld;
  trace : list event
}.

Definition emit (ev : event) (s : State) : State :=
  mkState (world s) (trace s ++ [ev]).

(** [print(line)] *)
Definition print (line : string) : M State unit :=
  fun s =>
    match console_rejects (world s) line with
    | None => (Ret tt, emit (EvPrint line) s)
    | Some e => (Raise (IsException e), emit (EvPrintRaised line e) s)
    end.

(** [p.exists()] *)
Definition exists_ (p : path) : M State bool :=
  fun s =>
    match fs_exists (world s) p with
    | inr b => (Ret b, s)
    | inl e => (Raise (IsException e), s)
    end.

(** [subprocess.run(cmd, shell=True, cwd=cwd, capture_output=True,
    text=True)] *)
Definition subprocess_run (cmd : string) (cwd : option path)
    : M State CompletedProcess :=
  fun s =>
    let (r, w') := proc_run (world s) cmd cwd in
    let s' := mkState w' (trace s ++ [EvRun cmd cwd r]) in
    match r with
    | Returned cp => (Ret cp, s')
    | NotLaunched e => (Raise (IsException e), s')
    | OutputRejected _ e => (Raise (IsException e), s')
    end.

(** [sys.exit(code)] *)
Definition sys_exit {A} (code : Z) : M State A := raise (SystemExit code).

(** [run_command] (setup.py, lines 10-30) *)
Definition run_command (cmd : string) (cwd : option path) : M State pyval :=
  try_except_Exception
    (print ("Running: " ++ cmd) ;;
     result <- subprocess_run cmd cwd ;;
     if (returncode result =? 0)%Z then
       print ("✅ " ++ cmd) ;;
       ret (PyBool true)
     else
       print ("❌ " ++ cmd) ;;
       print ("Error: " ++ stderr result) ;;
       ret (PyBool false))
    (fun e =>
       print ("❌ " ++ cmd ++ " - Exception: " ++ exc_str e) ;;
       ret (PyBool false)).

(** [main] (setup.py, lines 32-73), in the same blocks as above. *)
Definition manifest_check (dir : path) : M State bool :=
  d <- exists_ dir ;;
  if d then exists_ (dir // "package.json") else ret false.

Definition backend_unit (project_root : path) (success : pyval)
    : M State pyval :=
  let backend_dir := project_root // "backend" in
  present <- manifest_check backend_dir ;;
  if present then
    print (LF ++ "📦 Installing backend dependencies...") ;;
    r <- run_command "npm install" (Some backend_dir) ;;
    let success := py_and success r in
    print (LF ++ "🧪 Running backend tests...") ;;
    r <- run_command "npm test -- --run" (Some backend_dir) ;;
    let success := py_and success r in
    print (LF ++ "🔨 Building backend...") ;;
    r <- run_command "npm run build" (Some backend_dir) ;;
    let success := py_and success r in
    ret success
  else
    print "⚠️  Backend directory not found or missing package.json" ;;
    ret success.

Definition frontend_unit (project_root : path) (success : pyval)
    : M State pyval :=
  let frontend_dir := project_root // "frontend" in
  present <- manifest_check frontend_dir ;;
  if present then
    print (LF ++ "🎨 Installing frontend dependencies...") ;;
    r <- run_command "npm install" (Some frontend_dir) ;;
    let success := py_and success r in
    print (LF ++ "🔨 Building frontend...") ;;
    r <- run_command "npm run build" (Some frontend_dir) ;;
    let success := py_and success r in
    ret success
  else
    print "⚠️  Frontend directory not found or missing package.json" ;;
    ret success.

Definition setup_units (project_root : path) : M State pyval :=
  print "🚀 Setting up Oasis Hub development environment..." ;;
  let success := PyBool true in
  success <- backend_unit project_root success ;;
  success <- frontend_unit project_root success ;;
  ret success.

Definition report (success : pyval) : M State unit :=
  if py_truthy success then
    print (LF ++ "🎉 Setup completed successfully!") ;;
    print (LF ++ "📖 Next steps:") ;;
    print "1. Backend: cd backend && npm run dev" ;;
    print "2. Frontend: cd frontend && npm run dev" ;;
    print "3. Configure .env files for optional integrations"
  else
    print (LF ++ "❌ Setup encountered some errors") ;;
    sys_exit 1.

Definition main (project_root : path) : M State unit :=
  success <- setup_units project_root ;;
  report success.

Definition initial (w : FWorld) : State := mkState w [].

Definition run_script (project_root : path) (w : FWorld)
    : outcome unit * State :=
  main project_root (initial w).

(** The console accepts every line; the file system answers every
    check. *)
Definition console_accepts : Prop :=
  forall (w : FWorld) (line : string), console_rejects w line = None.

Definition checks_answer : Prop :=
  forall (w : FWorld) (p : path), exists b, fs_exists w p = inr b.

End Sequencer.

Fixpoint results (t : list event) : list run_result :=
  match t with
  | [] => []
  | EvRun _ _ r :: rest => r :: results rest
  | _ :: rest => results rest
  end.

(** The lines a trace printed, the refused ones left out. *)
Fixpoint printed (t : list event) : list string :=
  match t with
  | [] => []
  | EvPrint line :: rest => line :: printed rest
  | _ :: rest => printed rest
  end.

(** What one call of [run_command] adds to the trace when the console
    accepts its lines. *)
Definition run_command_events (cmd : string) (cwd : option path)
    (r : run_result) : list event :=
  [EvPrint ("Running: " ++ cmd); EvRun cmd cwd r] ++
  match r with
  | Returned cp =>
      if (returncode cp =? 0)%Z then [EvPrint ("✅ " ++ cmd)]
      else [EvPrint ("❌ " ++ cmd); EvPrint ("Error: " ++ stderr cp)]
  | NotLaunched e | OutputRejected _ e =>
      [EvPrint ("❌ " ++ cmd ++ " - Exception: " ++ exc_str e)]
  end.

(** *** A scripted host with a console and permissions *)

(** [ascii_console]: the console encodes ASCII only, [print] raises
    [UnicodeEncodeError] on any other text.  [denied]: the paths whose
    check raises [PermissionError].  [script]: the results of the
    commands still to be launched; past its end a command exits 0. *)
Record Scripted := mkScripted {
  ascii_console : bool;
  files : list path;
  denied : list path;
  script : list run_result
}.

Definition is_ascii (line : string) : bool :=
  forallb (fun c => Nat.ltb (nat_of_ascii c) 128) (list_ascii_of_string line).

Definition UnicodeEncodeError : Exception :=
  mkException (ExceptionSubclass "UnicodeEncodeError")
    "'ascii' codec can't encode character".

Definition UnicodeDecodeError : Exception :=
  mkException (ExceptionSubclass "UnicodeDecodeError")
    "'utf-8' codec can't decode byte 0xff in position 0: invalid start byte".

Definition PermissionError : Exception :=
  mkException OSError "[Errno 13] Permission denied".

Definition FileNotFoundError : Exception :=
  mkException OSError "[Errno 2] No such file or directory".

Definition scripted_console (w : Scripted) (line : string)
    : option Exception :=
  if ascii_console w && negb (is_ascii line)
  then Some UnicodeEncodeError else None.

Definition scripted_exists (w : Scripted) (p : path) : Exception + bool :=
  if existsb (path_eqb p) (denied w) then inl PermissionError
  else inr (existsb (path_eqb p) (files w)).

Definition scripted_run (w : Scripted) (cmd : string) (cwd : option path)
    : run_result * Scripted :=
  match script w with
  | [] => (Returned (mkCompleted 0 "" ""), w)
  | r :: rest =>
      (r, mkScripted (ascii_console w) (files w) (denied w) rest)
  end.

Definition scripted_host : FHost :=
  {| FWorld := Scripted;
     console_rejects := scripted_console;
     fs_exists := scripted_exists;
     proc_run := scripted_run |}.

(** An ASCII console, and a command that cannot be launched. *)
Definition host_ascii_no_launch : Scripted :=
  mkScripted true both_units [] [NotLaunched FileNotFoundError].

(** The first command exits 0, and what it wrote is not UTF-8. *)
Definition host_undecodable_output : Scripted :=
  mkScripted false both_units [] [OutputRejected 0 UnicodeDecodeError].

(** The check of the frontend directory is refused. *)
Definition host_frontend_denied : Scripted :=
  mkScripted false both_units [["repo"; "frontend"]] [].

(** *** The hosts of the first part *)

(** A host of the first part is a host of this one whose console accepts
    every line and whose checks always answer. *)
Definition of_host (H : Host) : FHost :=
  {| FWorld := @World H;
     console_rejects := fun _ _ => None;
     fs_exists := fun w p => inr (@path_exists H w p);
     proc_run := fun w cmd cwd =>
       match @os_run H w cmd cwd with
       | (Completed cp, w') => (Returned cp, w')
       | (LaunchFailed e, w') => (NotLaunched e, w')
       end |}.

End Fallible.

(** *** Back to the first part *)

(** A host that may refuse, read as a host of the first part: a check
    that raises is read as absent, and a call of [subprocess.run] that
    raises as a failure of the step, whether the process was not created
    or its output was rejected. *)
Definition spawn_of (r : Fallible.run_result) : spawn_result :=
  match r with
  | Fallible.Returned cp => Completed cp
  | Fallible.NotLaunched e => LaunchFailed e
  | Fallible.OutputRejected _ e => LaunchFailed e
  end.

Definition to_host (F : Fallible.FHost) : Host :=
  {| World := @Fallible.FWorld F;
     path_exists := fun w p =>
       match Fallible.fs_exists w p with
       | inr b => b
       | inl _ => false
       end;
     os_run := fun w cmd cwd =>
       (spawn_of (fst (Fallible.proc_run w cmd cwd)),
        snd (Fallible.proc_run w cmd cwd)) |}.

Fixpoint base_trace (t : list Fallible.event) : list event :=
  match t with
  | [] => []
  | Fallible.EvPrint line :: rest => EvPrint line :: base_trace rest
  | Fallible.EvPrintRaised _ _ :: rest => base_trace rest
  | Fallible.EvRun cmd cwd r :: rest =>
      EvRun cmd cwd (spawn_of r) :: base_trace rest
  end.

Definition base_state {F : Fallible.FHost} (s : @Fallible.State F)
    : @State (to_host F) :=
  @mkState (to_host F) (Fallible.world s) (base_trace (Fallible.trace s)).

(** [c'] does on the host of the first part what [c] does on the host
    that may refuse. *)
Definition simulates {F : Fallible.FHost} {A : Type}
    (c : M (@Fallible.State F) A) (c' : M (@State (to_host F)) A) : Prop :=
  forall s, c' (base_state s) = (fst (c s), base_state (snd (c s))).

(** * Properties *)

(** ** Lists of events *)

Lemma launched_app (t u : list event) :
  launched (t ++ u) = (launched t ++ launched u)%list.
Proof.
  induction t as [|[line|cmd cwd r] t IH]; simpl; [reflexivity|exact IH|].
  now rewrite IH.
Qed.

Lemma results_app (t u : list event) :
  results (t ++ u) = (results t ++ results u)%list.
Proof.
  induction t as [|[line|cmd cwd r] t IH]; simpl; [reflexivity|exact IH|].
  now rewrite IH.
Qed.

Lemma printed_app (t u : list event) :
  printed (t ++ u) = (printed t ++ printed u)%list.
Proof.
  induction t as [|[line|cmd cwd r] t IH]; simpl; [reflexivity| |exact IH].
  now rewrite IH.
Qed.

Lemma launched_run_command_events cmd cwd r :
  launched (run_command_events cmd cwd r) = [(cmd, cwd)].
Proof.
  destruct r as [cp|e]; simpl; [|reflexivity].
  destruct (returncode cp =? 0)%Z; reflexivity.
Qed.

Lemma results_run_command_events cmd cwd r :
  results (run_command_events cmd cwd r) = [r].
Proof.
  destruct r as [cp|e]; simpl; [|reflexivity].
  destruct (returncode cp =? 0)%Z; reflexivity.
Qed.

(** ** Python's [&] on booleans *)

Lemma py_and_bool (a b : bool) : py_and (PyBool a) (PyBool b) = PyBool (a && b).
Proof. reflexivity. Qed.

Lemma fold_py_and_bool (bs : list bool) (a : bool) :
  fold_left py_and (map PyBool bs) (PyBool a) = PyBool (fold_left andb bs a).
Proof.
  revert a; induction bs as [|b bs IH]; intro a; simpl; [reflexivity|].
  apply IH.
Qed.

Lemma fold_left_andb (bs : list bool) (a : bool) :
  fold_left andb bs a = a && overallSuccess_fold bs.
Proof.
  revert a; induction bs as [|b bs IH]; intro a; simpl.
  - now rewrite andb_true_r.
  - rewrite IH. now rewrite andb_assoc.
Qed.

Lemma accumulate_bool (bs : list bool) :
  accumulate (map PyBool bs) = PyBool (overallSuccess_fold bs).
Proof.
  unfold accumulate. rewrite fold_py_and_bool, fold_left_andb. reflexivity.
Qed.

Lemma overallSuccess_fold_false (bs : list bool) :
  overallSuccess_fold bs = false <-> In false bs.
Proof.
  induction bs as [|b bs IH]; simpl.
  - split; [discriminate|tauto].
  - destruct b; simpl.
    + rewrite IH. split; [tauto|]. intros [E|I]; [discriminate|exact I].
    + split; auto.
Qed.

(** ** What the code does, step by step *)

Section Execution.

Context {H : Host}.

Lemma plan_trace_cons (w : World) (heading cmd : string)
    (cwd : option path) (rest : list (string * step)) :
  plan_trace w ((heading, (cmd, cwd)) :: rest) =
  (EvPrint heading ::
     run_command_events cmd cwd (fst (os_run w cmd cwd)) ++
     fst (plan_trace (snd (os_run w cmd cwd)) rest),
   snd (plan_trace (snd (os_run w cmd cwd)) rest)).
Proof.
  simpl. destruct (os_run w cmd cwd) as [r w1]; simpl.
  destruct (plan_trace w1 rest); reflexivity.
Qed.

Lemma manifest_check_run (dir : path) (s : State) :
  manifest_check dir s = (Ret (manifest_present (world s) dir), s).
Proof.
  unfold manifest_check, manifest_present, bind, exists_, ret.
  destruct (path_exists (world s) dir); reflexivity.
Qed.

(** One call of [run_command]: it completes, with [True] exactly for a
    process that exited with code 0, and adds its lines to the trace. *)
Lemma run_command_run (cmd : string) (cwd : option path) (s : State) :
  run_command cmd cwd s =
  (Ret (returned (fst (os_run (world s) cmd cwd))),
   mkState (snd (os_run (world s) cmd cwd))
           (trace s ++ run_command_events cmd cwd
                         (fst (os_run (world s) cmd cwd)))).
Proof.
  unfold run_command, try_except_Exception, bind, print, subprocess_run,
    emit, ret, returned, run_command_events; simpl.
  destruct (os_run (world s) cmd cwd) as [[cp|e] w'] eqn:E; simpl.
  - destruct (returncode cp =? 0)%Z; simpl;
      repeat rewrite <- app_assoc; reflexivity.
  - repeat rewrite <- app_assoc; reflexivity.
Qed.

Lemma print_run (line : string) (s : State) :
  print line s = (Ret tt, mkState (world s) (trace s ++ [EvPrint line])).
Proof. reflexivity. Qed.

Lemma backend_unit_run (project_root : path) (success : pyval) (s : State) :
  backend_unit project_root success s =
  (Ret (fold_left py_and
          (map returned
             (results (fst (unit_trace
                (manifest_present (world s) (project_root // "backend"))
                backend_warning (backend_plan project_root) (world s)))))
          success),
   mkState
     (snd (unit_trace
             (manifest_present (world s) (project_root // "backend"))
             backend_warning (backend_plan project_root) (world s)))
     (trace s ++
      fst (unit_trace
             (manifest_present (world s) (project_root // "backend"))
             backend_warning (backend_plan project_root) (world s)))).
Proof.
  unfold backend_unit, bind. rewrite manifest_check_run.
  destruct (manifest_present (world s) (project_root // "backend")).
  - repeat (rewrite print_run || rewrite run_command_run);
      cbn [world trace].
    unfold unit_trace, backend_plan, backend_steps, combine.
    rewrite !plan_trace_cons; cbn [fst snd plan_trace results].
    repeat first [ rewrite results_app
                 | rewrite results_run_command_events
                 | progress cbn [results map fold_left app] ].
    unfold ret. f_equal. f_equal.
    repeat rewrite <- app_assoc. cbn [app]. rewrite app_nil_r.
    reflexivity.
  - rewrite print_run. reflexivity.
Qed.

Lemma frontend_unit_run (project_root : path) (success : pyval) (s : State) :
  frontend_unit project_root success s =
  (Ret (fold_left py_and
          (map returned
             (results (fst (unit_trace
                (manifest_present (world s) (project_root // "frontend"))
                frontend_warning (frontend_plan project_root) (world s)))))
          success),
   mkState
     (snd (unit_trace
             (manifest_present (world s) (project_root // "frontend"))
             frontend_warning (frontend_plan project_root) (world s)))
     (trace s ++
      fst (unit_trace
             (manifest_present (world s) (project_root // "frontend"))
             frontend_warning (frontend_plan project_root) (world s)))).
Proof.
  unfold frontend_unit, bind. rewrite manifest_check_run.
  destruct (manifest_present (world s) (project_root // "frontend")).
  - repeat (rewrite print_run || rewrite run_command_run);
      cbn [world trace].
    unfold unit_trace, frontend_plan, frontend_steps, combine.
    rewrite !plan_trace_cons; cbn [fst snd plan_trace results].
    repeat first [ rewrite results_app
                 | rewrite results_run_command_events
                 | progress cbn [results map fold_left app] ].
    unfold ret. f_equal. f_equal.
    repeat rewrite <- app_assoc. cbn [app]. rewrite app_nil_r.
    reflexivity.
  - rewrite print_run. reflexivity.
Qed.

(** The sequencer never raises; it answers the accumulation of what its
    steps returned and leaves the trace [setup_trace] computes. *)
Lemma setup_units_run (project_root : path) (w : World) :
  setup_units project_root (initial w) =
  (Ret (accumulate (map returned
                      (results (fst (setup_trace project_root w))))),
   mkState (snd (setup_trace project_root w))
           (fst (setup_trace project_root w))).
Proof.
  unfold setup_units, bind. rewrite print_run.
  rewrite backend_unit_run. rewrite frontend_unit_run. simpl.
  unfold setup_trace.
  destruct (unit_trace (manifest_present w (project_root // "backend"))
              backend_warning (backend_plan project_root) w)
    as [t1 w1]; simpl.
  destruct (unit_trace (manifest_present w1 (project_root // "frontend"))
              frontend_warning (frontend_plan project_root) w1)
    as [t2 w2]; simpl.
  unfold ret, accumulate. rewrite results_app, map_app, fold_left_app.
  reflexivity.
Qed.

(** *** The steps a run launches *)

Lemma launched_plan_trace (plan : list (string * step)) (w : World) :
  launched (fst (plan_trace w plan)) = map snd plan.
Proof.
  revert w; induction plan as [|[heading [cmd cwd]] plan IH]; intro w.
  - reflexivity.
  - rewrite plan_trace_cons. cbn [fst launched map snd].
    rewrite launched_app, launched_run_command_events, IH. reflexivity.
Qed.

Lemma world_plan_trace (plan : list (string * step)) (w : World) :
  snd (plan_trace w plan) = host_after w (map snd plan).
Proof.
  revert w; induction plan as [|[heading [cmd cwd]] plan IH]; intro w.
  - reflexivity.
  - rewrite plan_trace_cons. cbn [snd map host_after]. apply IH.
Qed.

Lemma launched_unit_trace present warning plan (w : World) :
  launched (fst (unit_trace present warning plan w)) =
  steps_if present (map snd plan).
Proof.
  destruct present; simpl; [apply launched_plan_trace|reflexivity].
Qed.

Lemma world_unit_trace present warning plan (w : World) :
  snd (unit_trace present warning plan w) =
  host_after w (steps_if present (map snd plan)).
Proof.
  destruct present; simpl; [apply world_plan_trace|reflexivity].
Qed.

Lemma launched_setup_trace (project_root : path) (w : World) :
  launched (fst (setup_trace project_root w)) =
  (steps_if (backend_present project_root w) (backend_steps project_root) ++
   steps_if (frontend_present project_root w) (frontend_steps project_root))%list.
Proof.
  unfold setup_trace, frontend_present, backend_present.
  pose proof (launched_unit_trace
                (manifest_present w (project_root // "backend"))
                backend_warning (backend_plan project_root) w) as L1.
  pose proof (world_unit_trace
                (manifest_present w (project_root // "backend"))
                backend_warning (backend_plan project_root) w) as W1.
  destruct (unit_trace (manifest_present w (project_root // "backend"))
              backend_warning (backend_plan project_root) w)
    as [t1 w1]; cbn [fst snd] in L1, W1.
  pose proof (launched_unit_trace
                (manifest_present w1 (project_root // "frontend"))
                frontend_warning (frontend_plan project_root) w1) as L2.
  destruct (unit_trace (manifest_present w1 (project_root // "frontend"))
              frontend_warning (frontend_plan project_root) w1)
    as [t2 w2]; cbn [fst snd] in L2.
  cbn [fst launched]. rewrite launched_app, L1, L2.
  change (map snd (backend_plan project_root))
    with (backend_steps project_root) in *.
  change (map snd (frontend_plan project_root))
    with (frontend_steps project_root) in *.
  rewrite <- W1. reflexivity.
Qed.

Lemma length_results_launched (t : list event) :
  List.length (results t) = List.length (launched t).
Proof.
  induction t as [|[line|cmd cwd r] t IH]; simpl; [reflexivity|exact IH|].
  now rewrite IH.
Qed.

(** *** The whole script *)

Lemma main_after_setup (project_root : path) (s : State) :
  main project_root s =
  match setup_units project_root s with
  | (Ret success, s') => report success s'
  | (Raise e, s') => (Raise e, s')
  end.
Proof. reflexivity. Qed.

Lemma report_run (b : bool) (s : State) :
  report (PyBool b) s =
  (if b then Ret tt else Raise (SystemExit 1),
   mkState (world s)
     (trace s ++
      map EvPrint (if b then guidance_block else [error_summary]))).
Proof.
  unfold report, bind, sys_exit, raise, print, emit; destruct b; simpl;
    repeat rewrite <- app_assoc; reflexivity.
Qed.

Lemma run_script_run (project_root : path) (w : World) :
  let t := fst (setup_trace project_root w) in
  let b := overallSuccess_fold (map step_succeeded (results t)) in
  run_script project_root w =
  (if b then Ret tt else Raise (SystemExit 1),
   mkState (snd (setup_trace project_root w))
     (t ++ map EvPrint (if b then guidance_block else [error_summary]))).
Proof.
  intros t b. unfold run_script. rewrite main_after_setup, setup_units_run.
  unfold returned. rewrite <- (map_map step_succeeded PyBool).
  rewrite accumulate_bool, report_run. reflexivity.
Qed.

Lemma launched_map_EvPrint (lines : list string) :
  launched (map EvPrint lines) = [].
Proof. induction lines; simpl; auto. Qed.

Lemma results_map_EvPrint (lines : list string) :
  results (map EvPrint lines) = [].
Proof. induction lines; simpl; auto. Qed.

Lemma launched_run_script (project_root : path) (w : World) :
  launched (trace (snd (run_script project_root w))) =
  (steps_if (backend_present project_root w) (backend_steps project_root) ++
   steps_if (frontend_present project_root w) (frontend_steps project_root))%list.
Proof.
  rewrite run_script_run. cbn [snd trace].
  rewrite launched_app, launched_map_EvPrint, app_nil_r.
  apply launched_setup_trace.
Qed.

End Execution.

(** ** The aggregate *)

Section Aggregate.

Context {H : Host}.

(** C1. In every run, [success] as line 65 of [main] tests it is a
    boolean, the logical AND (from true) of the outcomes of exactly the
    steps the run executed; it is false if and only if some executed
    step failed, wherever in the run that step is.  A step's outcome
    [step_succeeded r] is the value [run_command] returned for it
    ([run_command_run]). *)
Theorem overallSuccess_false_iff_step_failed
    (project_root : path) (w : World) :
  let run := setup_units project_root (initial w) in
  let executed := results (trace (snd run)) in
  exists overallSuccess : bool,
    fst run = Ret (PyBool overallSuccess) /\
    main project_root (initial w) = report (PyBool overallSuccess) (snd run) /\
    overallSuccess = overallSuccess_fold (map step_succeeded executed) /\
    (overallSuccess = false <->
     exists r, In r executed /\ step_succeeded r = false) /\
    (forall before r after,
       executed = (before ++ r :: after)%list ->
       step_succeeded r = false -> overallSuccess = false).
Proof.
  intros run executed. subst executed run.
  rewrite main_after_setup, setup_units_run. cbn [fst snd trace].
  set (rs := results (fst (setup_trace project_root w))).
  exists (overallSuccess_fold (map step_succeeded rs)).
  assert (F : overallSuccess_fold (map step_succeeded rs) = false <->
              exists r, In r rs /\ step_succeeded r = false).
  { rewrite overallSuccess_fold_false, in_map_iff.
    split; intros [r [A B]]; exists r; tauto. }
  unfold returned. rewrite <- (map_map step_succeeded PyBool).
  rewrite accumulate_bool.
  repeat split; try apply F.
  intros before r after E Hr. apply F. exists r. split; [|exact Hr].
  rewrite E. apply in_elt.
Qed.

(** C9. The accumulation [success &= run_command(...)] of [main] refines
    the logical-AND fold of the specification: Python's [&] on two
    booleans is their conjunction and a boolean; so the accumulation
    over boolean outcomes is a boolean, the fold of the outcomes; and
    the value [main] computes is that accumulation over what its steps
    returned, hence the fold over the outcomes of the executed steps,
    which is also what [if success:] tests. *)
Theorem accumulation_refines_fold :
  (forall a b : bool, py_and (PyBool a) (PyBool b) = PyBool (a && b)) /\
  (forall outcomes : list bool,
     accumulate (map PyBool outcomes) =
     PyBool (overallSuccess_fold outcomes)) /\
  (forall (project_root : path) (w : World),
     let run := setup_units project_root (initial w) in
     let executed := results (trace (snd run)) in
     fst run = Ret (accumulate (map returned executed)) /\
     accumulate (map returned executed) =
     PyBool (overallSuccess_fold (map step_succeeded executed)) /\
     py_truthy (accumulate (map returned executed)) =
     overallSuccess_fold (map step_succeeded executed)).
Proof.
  split; [reflexivity|]. split; [apply accumulate_bool|].
  intros project_root w run executed. subst executed run.
  rewrite setup_units_run. cbn [fst snd trace].
  unfold returned. rewrite <- (map_map step_succeeded PyBool).
  rewrite accumulate_bool. repeat split.
Qed.

End Aggregate.

(** ** Order and number of the steps *)

Section Order.

Context {H : Host}.

(** C7. A run launches the steps of the backend unit, when its manifest
    is present, and then those of the frontend unit, when its manifest
    is present, and nothing else: the backend's are install, test and
    build, three steps, the frontend's install and build, two steps. *)
Theorem units_and_steps_in_fixed_order (project_root : path) (w : World) :
  launched (trace (snd (run_script project_root w))) =
    (steps_if (backend_present project_root w)
              (backend_steps project_root) ++
     steps_if (frontend_present project_root w)
              (frontend_steps project_root))%list /\
  backend_steps project_root =
    [ ("npm install", Some (project_root // "backend"));
      ("npm test -- --run", Some (project_root // "backend"));
      ("npm run build", Some (project_root // "backend")) ] /\
  frontend_steps project_root =
    [ ("npm install", Some (project_root // "frontend"));
      ("npm run build", Some (project_root // "frontend")) ] /\
  List.length (backend_steps project_root) = 3 /\
  List.length (frontend_steps project_root) = 2.
Proof.
  split; [apply launched_run_script|]. repeat split.
Qed.

(** C10. Each unit runs all of its steps or none, by its manifest alone:
    the steps of a run are those of the backend (three, or none) followed
    by those of the frontend (two, or none), each with one result, so a
    run executes 0, 2, 3 or 5 steps. *)
Theorem steps_all_or_nothing (project_root : path) (w : World) :
  let t := trace (snd (run_script project_root w)) in
  exists b f : list step,
    launched t = (b ++ f)%list /\
    b = (if backend_present project_root w
         then backend_steps project_root else []) /\
    List.length b = (if backend_present project_root w then 3 else 0) /\
    f = (if frontend_present project_root w
         then frontend_steps project_root else []) /\
    List.length f = (if frontend_present project_root w then 2 else 0) /\
    List.length (results t) = List.length (launched t) /\
    (List.length (launched t) = 0 \/ List.length (launched t) = 2 \/
     List.length (launched t) = 3 \/ List.length (launched t) = 5).
Proof.
  intro t. subst t.
  exists (steps_if (backend_present project_root w)
                   (backend_steps project_root)),
         (steps_if (frontend_present project_root w)
                   (frontend_steps project_root)).
  rewrite length_results_launched, launched_run_script.
  rewrite length_app.
  destruct (backend_present project_root w),
           (frontend_present project_root w); simpl; repeat split; auto.
Qed.

(** C2. Whenever a unit's manifest is present, the run launches all of
    that unit's steps, in their declared order and next to each other,
    whatever the results of the steps are: a failing install does not
    keep test and build from running. *)
Theorem steps_not_short_circuited
    (project_root : path) (w : World) (u : unit_name) :
  unit_present project_root w u = true ->
  exists before after : list step,
    launched (trace (snd (run_script project_root w))) =
    (before ++ unit_steps project_root u ++ after)%list.
Proof.
  intro P. rewrite launched_run_script. destruct u; simpl in P; rewrite P.
  - exists [], (steps_if (frontend_present project_root w)
                         (frontend_steps project_root)).
    reflexivity.
  - exists (steps_if (backend_present project_root w)
                     (backend_steps project_root)), [].
    rewrite app_nil_r. reflexivity.
Qed.

(** In a whole run, a unit found absent contributes no step: the steps
    launched are those of the other unit, if that one is present. *)
Lemma absent_unit_in_run (project_root : path) (w : World) (u : unit_name) :
  unit_present project_root w u = false ->
  launched (trace (snd (run_script project_root w))) =
  match u with
  | Backend => steps_if (frontend_present project_root w)
                        (frontend_steps project_root)
  | Frontend => steps_if (backend_present project_root w)
                         (backend_steps project_root)
  end.
Proof.
  intro P. rewrite launched_run_script. destruct u; simpl in P; rewrite P.
  - reflexivity.
  - apply app_nil_r.
Qed.

End Order.

(** C8. Two runs, on any two hosts, that find the same units present
    launch the same steps in the same order, whatever else differs
    between the hosts and whatever the steps answer. *)
Theorem launched_steps_deterministic
    (H1 H2 : Host) (project_root : path)
    (w1 : @World H1) (w2 : @World H2) :
  @backend_present H1 project_root w1 = @backend_present H2 project_root w2 ->
  @frontend_present H1 project_root w1 = @frontend_present H2 project_root w2 ->
  launched (trace (snd (@run_script H1 project_root w1))) =
  launched (trace (snd (@run_script H2 project_root w2))).
Proof.
  intros B F. rewrite !launched_run_script, B, F. reflexivity.
Qed.

(** ** Failures of a step *)

Section Steps.

Context {H : Host}.

(** When the process cannot be created, [subprocess.run] raises: the
    [try] of [run_command] is what keeps the exception from [main]. *)
Lemma subprocess_run_raises cmd cwd (s : State) (e : Exception) :
  fst (os_run (world s) cmd cwd) = LaunchFailed e ->
  fst (subprocess_run cmd cwd s) = Raise (IsException e).
Proof.
  unfold subprocess_run. destruct (os_run (world s) cmd cwd) as [r w'].
  simpl. intros ->. reflexivity.
Qed.

(** The handler is for [Exception] only: a [SystemExit] raised under the
    [try] would pass through it. *)
Lemma except_Exception_passes_SystemExit
    (code : Z) (handler : Exception -> M State pyval) (s : State) :
  try_except_Exception (sys_exit code) handler s = (Raise (SystemExit code), s).
Proof. reflexivity. Qed.

(** C5. A unit whose directory or whose [package.json] is absent is
    skipped: its block launches nothing and leaves the host as it was,
    prints the warning that names the unit, and answers [success]
    unchanged. *)
Theorem absent_unit_skipped
    (project_root : path) (u : unit_name) (success : pyval) (s : State) :
  path_exists (world s) (unit_dir project_root u) = false \/
  path_exists (world s) (unit_dir project_root u // "package.json") = false ->
  run_unit project_root u success s =
    (Ret success,
     mkState (world s) (trace s ++ [EvPrint (unit_warning u)])) /\
  launched (trace (snd (run_unit project_root u success s))) =
    launched (trace s).
Proof.
  intro A.
  assert (P : manifest_present (world s) (unit_dir project_root u) = false).
  { unfold manifest_present. destruct A as [A|A]; rewrite A;
      [reflexivity|apply andb_false_r]. }
  assert (R : run_unit project_root u success s =
              (Ret success,
               mkState (world s) (trace s ++ [EvPrint (unit_warning u)]))).
  { destruct u; cbn [run_unit unit_dir unit_warning] in *.
    - rewrite backend_unit_run, P. reflexivity.
    - rewrite frontend_unit_run, P. reflexivity. }
  split; [exact R|]. rewrite R. cbn [snd trace].
  rewrite launched_app. cbn [launched]. apply app_nil_r.
Qed.

End Steps.

(** ** The closing report and the exit status *)

Section Report.

Context {H : Host}.

(** No line [run_command] prints is a line of the report, whatever the
    command, its standard error or the text of the exception. *)
Lemma run_command_events_no_report cmd cwd r :
  no_report (printed (run_command_events cmd cwd r)).
Proof.
  unfold no_report, run_command_events. destruct r as [cp|e]; simpl.
  - destruct (returncode cp =? 0)%Z; simpl; repeat constructor.
  - repeat constructor.
Qed.

Lemma plan_trace_no_report (plan : list (string * step)) (w : World) :
  no_report (map fst plan) ->
  no_report (printed (fst (plan_trace w plan))).
Proof.
  revert w; induction plan as [|[heading [cmd cwd]] plan IH]; intros w N.
  - constructor.
  - rewrite plan_trace_cons. cbn [fst printed map] in *.
    inversion N as [|? ? N1 N2]; subst.
    constructor; [exact N1|]. rewrite printed_app. apply Forall_app.
    split; [apply run_command_events_no_report|apply IH, N2].
Qed.

Lemma unit_trace_no_report present warning plan (w : World) :
  report_line warning = false ->
  no_report (map fst plan) ->
  no_report (printed (fst (unit_trace present warning plan w))).
Proof.
  intros W N. destruct present; simpl.
  - apply plan_trace_no_report, N.
  - repeat constructor. exact W.
Qed.

Lemma setup_trace_no_report (project_root : path) (w : World) :
  no_report (printed (fst (setup_trace project_root w))).
Proof.
  unfold setup_trace.
  pose proof (unit_trace_no_report
                (manifest_present w (project_root // "backend"))
                backend_warning (backend_plan project_root) w) as N1.
  destruct (unit_trace (manifest_present w (project_root // "backend"))
              backend_warning (backend_plan project_root) w) as [t1 w1].
  pose proof (unit_trace_no_report
                (manifest_present w1 (project_root // "frontend"))
                frontend_warning (frontend_plan project_root) w1) as N2.
  destruct (unit_trace (manifest_present w1 (project_root // "frontend"))
              frontend_warning (frontend_plan project_root) w1) as [t2 w2].
  cbn [fst printed] in *. constructor; [reflexivity|].
  rewrite printed_app. apply Forall_app. split.
  - apply N1; [reflexivity|repeat constructor].
  - apply N2; [reflexivity|repeat constructor].
Qed.

Lemma report_line_in (line : string) :
  In line (error_summary :: guidance_block) -> report_line line = true.
Proof.
  intro I. unfold report_line. apply existsb_exists.
  exists line. split; [exact I|apply String.eqb_refl].
Qed.

Lemma not_in_by_eqb (line : string) (lines : list string) :
  existsb (String.eqb line) lines = false -> ~ In line lines.
Proof.
  intros E I. rewrite (proj2 (existsb_exists _ _)) in E; [discriminate|].
  exists line. split; [exact I|apply String.eqb_refl].
Qed.

Lemma error_summary_not_guidance : ~ In error_summary guidance_block.
Proof. apply not_in_by_eqb. reflexivity. Qed.

Lemma printed_map_EvPrint (lines : list string) :
  printed (map EvPrint lines) = lines.
Proof. induction lines as [|l lines IH]; simpl; [|rewrite IH]; reflexivity. Qed.

(** C3. The script ends with exit status 0 when [success] is true and
    with exit status 1 when it is false.  On success the last lines it
    prints are the guidance block, and the error summary is printed
    nowhere; on failure the last line is the error summary, and no line
    of the guidance block is printed anywhere. *)
Theorem exit_status_follows_overallSuccess
    (project_root : path) (w : World) :
  let run := setup_units project_root (initial w) in
  let script := run_script project_root w in
  exists overallSuccess : bool,
    fst run = Ret (PyBool overallSuccess) /\
    if overallSuccess then
      fst script = Ret tt /\
      exit_status (fst script) = 0%Z /\
      trace (snd script) =
        (trace (snd run) ++ map EvPrint guidance_block)%list /\
      ~ In error_summary (printed (trace (snd script)))
    else
      fst script = Raise (SystemExit 1) /\
      exit_status (fst script) = 1%Z /\
      trace (snd script) =
        (trace (snd run) ++ [EvPrint error_summary])%list /\
      forall line, In line guidance_block ->
        ~ In line (printed (trace (snd script))).
Proof.
  intros run script. subst run script.
  rewrite run_script_run, setup_units_run. cbn [fst snd trace].
  unfold returned. rewrite <- (map_map step_succeeded PyBool).
  rewrite accumulate_bool.
  pose proof (setup_trace_no_report project_root w) as N.
  set (t := fst (setup_trace project_root w)) in *.
  exists (overallSuccess_fold (map step_succeeded (results t))).
  split; [reflexivity|].
  unfold no_report in N. rewrite Forall_forall in N.
  destruct (overallSuccess_fold (map step_succeeded (results t))).
  - repeat split. rewrite printed_app, printed_map_EvPrint.
    intro I. apply in_app_or in I. destruct I as [I|I].
    + apply N in I. rewrite report_line_in in I; [discriminate|].
      left; reflexivity.
    + exact (error_summary_not_guidance I).
  - repeat split. intros line G. rewrite printed_app. cbn [printed].
    intro I. apply in_app_or in I. destruct I as [I|[I|[]]].
    + apply N in I. rewrite report_line_in in I; [discriminate|].
      right; exact G.
    + subst line. exact (error_summary_not_guidance G).
Qed.

End Report.

(** ** Runs on the scripted host *)

(** All five commands exit 0: status 0, and the guidance is printed. *)
Example scenario_all_pass :
  exit_status (fst (@run_script scripted_host ["repo"] host_all_pass)) = 0%Z /\
  launched (trace (snd (@run_script scripted_host ["repo"] host_all_pass))) =
    (backend_steps ["repo"] ++ frontend_steps ["repo"])%list /\
  In (LF ++ "📖 Next steps:")
     (printed (trace (snd (@run_script scripted_host ["repo"] host_all_pass)))).
Proof. vm_compute. intuition. Qed.

(** No backend manifest: the warning, the two frontend steps, status 0. *)
Example scenario_backend_missing :
  exit_status
    (fst (@run_script scripted_host ["repo"] host_frontend_only)) = 0%Z /\
  launched
    (trace (snd (@run_script scripted_host ["repo"] host_frontend_only))) =
    frontend_steps ["repo"] /\
  In backend_warning
     (printed
        (trace (snd (@run_script scripted_host ["repo"] host_frontend_only)))).
Proof. vm_compute. intuition. Qed.

(** The backend install exits 1: test and build are still launched, and
    the status is 1 although every other command exits 0. *)
Example scenario_install_fails :
  exit_status
    (fst (@run_script scripted_host ["repo"] host_install_fails)) = 1%Z /\
  launched
    (trace (snd (@run_script scripted_host ["repo"] host_install_fails))) =
    (backend_steps ["repo"] ++ frontend_steps ["repo"])%list /\
  map step_succeeded
    (results
       (trace (snd (@run_script scripted_host ["repo"] host_install_fails)))) =
    [false; true; true; true; true].
Proof. vm_compute. intuition. Qed.

(** A failure of the last step alone gives status 1 as well. *)
Example scenario_last_fails :
  exit_status (fst (@run_script scripted_host ["repo"] host_last_fails)) = 1%Z /\
  map step_succeeded
    (results
       (trace (snd (@run_script scripted_host ["repo"] host_last_fails)))) =
    [true; true; true; true; false].
Proof. vm_compute. intuition. Qed.

(** Neither unit: two warnings, no step, status 0. *)
Example scenario_no_unit :
  @run_script scripted_host ["repo"] host_empty =
  (Ret tt,
   @mkState scripted_host host_empty
     (map EvPrint
        ("🚀 Setting up Oasis Hub development environment..." ::
         backend_warning :: frontend_warning :: guidance_block))).
Proof. reflexivity. Qed.

(** The frontend's manifest is looked for after the backend's steps ran:
    when the backend install removes it, the frontend is skipped. *)
Example scenario_manifest_removed :
  @frontend_present scripted_host ["repo"] host_install_removes_frontend
    = false /\
  launched
    (trace (snd (@run_script scripted_host ["repo"]
                   host_install_removes_frontend))) =
    backend_steps ["repo"].
Proof. vm_compute. intuition. Qed.

(** A command that cannot be launched: [run_command] answers [False]. *)
Example scenario_launch_failure :
  @run_command scripted_host "npm install" (Some ["repo"; "backend"])
    (@initial scripted_host (mkScripted both_units [no_shell])) =
  (Ret (PyBool false),
   @mkState scripted_host (mkScripted both_units [])
     [ EvPrint "Running: npm install";
       EvRun "npm install" (Some ["repo"; "backend"]) (fst no_shell);
       EvPrint "❌ npm install - Exception: [Errno 2] No such file or directory" ]).
Proof. reflexivity. Qed.

(** [&] leaves the booleans as soon as one operand is an [int]. *)
Example py_and_int : py_and (PyInt 3) (PyBool true) = PyInt 1.
Proof. reflexivity. Qed.

(** *** The theorems with a hypothesis, at a concrete run *)

Lemma steps_not_short_circuited_witness :
  step_succeeded
    (fst (scripted_run host_install_fails "npm install"
            (Some ["repo"; "backend"]))) = false /\
  exists before after : list step,
    launched
      (trace (snd (@run_script scripted_host ["repo"] host_install_fails))) =
    (before ++ unit_steps ["repo"] Backend ++ after)%list.
Proof.
  split; [reflexivity|].
  apply (@steps_not_short_circuited scripted_host ["repo"]
           host_install_fails Backend).
  reflexivity.
Defined.

Lemma launched_steps_deterministic_witness :
  launched (trace (snd (@run_script scripted_host ["repo"] host_all_pass))) =
  launched (trace (snd (@run_script scripted_host ["repo"] host_install_fails))).
Proof.
  apply (launched_steps_deterministic scripted_host scripted_host ["repo"]
           host_all_pass host_install_fails); reflexivity.
Defined.

Lemma absent_unit_skipped_witness :
  @run_unit scripted_host ["repo"] Backend (PyBool true)
    (@initial scripted_host host_frontend_only) =
  (Ret (PyBool true),
   @mkState scripted_host host_frontend_only [EvPrint backend_warning]) /\
  launched
    (trace (snd (@run_unit scripted_host ["repo"] Backend (PyBool true)
                   (@initial scripted_host host_frontend_only)))) = [].
Proof.
  apply (@absent_unit_skipped scripted_host ["repo"] Backend (PyBool true)
           (@initial scripted_host host_frontend_only)).
  right. reflexivity.
Defined.

(** * Further properties of [run_command] and [main] *)

(** ** One call of [run_command] *)

Section OneStep.

Context {H : Host}.

(** A call of [run_command] launches its command once, in the working
    directory it was given, whatever the result is: a failed step is not
    tried again.  The host it leaves is the one that launch leaves. *)
Theorem run_command_launches_once cmd cwd (s : State) :
  launched (trace (snd (run_command cmd cwd s))) =
    (launched (trace s) ++ [(cmd, cwd)])%list /\
  results (trace (snd (run_command cmd cwd s))) =
    (results (trace s) ++ [fst (os_run (world s) cmd cwd)])%list /\
  world (snd (run_command cmd cwd s)) = snd (os_run (world s) cmd cwd).
Proof.
  rewrite run_command_run. cbn [snd trace world].
  rewrite launched_app, results_app.
  rewrite launched_run_command_events, results_run_command_events.
  repeat split.
Qed.

Lemma printed_run_command cmd cwd (s : State) :
  printed (trace (snd (run_command cmd cwd s))) =
  (printed (trace s) ++
   printed (run_command_events cmd cwd (fst (os_run (world s) cmd cwd))))%list.
Proof. rewrite run_command_run. cbn [snd trace]. apply printed_app. Qed.

End OneStep.

(** ** A whole run *)

Section WholeRun.

Context {H : Host}.

Lemma host_after_app (w : World) (a b : list step) :
  host_after w (a ++ b) = host_after (host_after w a) b.
Proof.
  revert w; induction a as [|[cmd cwd] a IH]; intro w; simpl; [reflexivity|].
  apply IH.
Qed.

(** The trace of the sequencer, unit by unit. *)
Lemma setup_trace_units (project_root : path) (w : World) :
  let w1 := host_after w (steps_if (backend_present project_root w)
                                   (backend_steps project_root)) in
  exists t1 t2 : list event,
    fst (setup_trace project_root w) = EvPrint banner :: (t1 ++ t2)%list /\
    t1 = (if backend_present project_root w
          then fst (plan_trace w (backend_plan project_root))
          else [EvPrint backend_warning]) /\
    t2 = (if frontend_present project_root w
          then fst (plan_trace w1 (frontend_plan project_root))
          else [EvPrint frontend_warning]).
Proof.
  intro w1. subst w1. unfold setup_trace, frontend_present, backend_present.
  destruct (manifest_present w (project_root // "backend"));
    cbn [steps_if unit_trace host_after].
  - change (backend_steps project_root)
      with (map snd (backend_plan project_root)).
    rewrite <- (world_plan_trace (backend_plan project_root) w).
    destruct (plan_trace w (backend_plan project_root)) as [t1 w1].
    cbn [snd fst].
    destruct (manifest_present w1 (project_root // "frontend"));
      cbn [unit_trace].
    + destruct (plan_trace w1 (frontend_plan project_root)) as [t2 w2].
      exists t1, t2. repeat split.
    + exists t1, [EvPrint frontend_warning]. repeat split.
  - destruct (manifest_present w (project_root // "frontend"));
      cbn [unit_trace].
    + destruct (plan_trace w (frontend_plan project_root)) as [t2 w2].
      exists [EvPrint backend_warning], t2. repeat split.
    + exists [EvPrint backend_warning], [EvPrint frontend_warning].
      repeat split.
Qed.

Lemma world_setup_trace (project_root : path) (w : World) :
  snd (setup_trace project_root w) =
  host_after w (launched (fst (setup_trace project_root w))).
Proof.
  rewrite launched_setup_trace, host_after_app.
  unfold setup_trace, frontend_present, backend_present.
  pose proof (world_unit_trace
                (manifest_present w (project_root // "backend"))
                backend_warning (backend_plan project_root) w) as W1.
  change (map snd (backend_plan project_root))
    with (backend_steps project_root) in W1.
  rewrite <- W1.
  destruct (unit_trace (manifest_present w (project_root // "backend"))
              backend_warning (backend_plan project_root) w) as [t1 w1].
  cbn [snd].
  pose proof (world_unit_trace
                (manifest_present w1 (project_root // "frontend"))
                frontend_warning (frontend_plan project_root) w1) as W2.
  change (map snd (frontend_plan project_root))
    with (frontend_steps project_root) in W2.
  rewrite <- W2.
  destruct (unit_trace (manifest_present w1 (project_root // "frontend"))
              frontend_warning (frontend_plan project_root) w1) as [t2 w2].
  reflexivity.
Qed.

Lemma overallSuccess_fold_true (bs : list bool) :
  overallSuccess_fold bs = true <-> forall b, In b bs -> b = true.
Proof.
  induction bs as [|b bs IH]; simpl.
  - split; [intros _ b []|reflexivity].
  - rewrite andb_true_iff, IH. split.
    + intros [B A] c [E|I]; [rewrite <- E; exact B|apply A, I].
    + intro A. split; [apply A; left; reflexivity|].
      intros c I. apply A. right; exact I.
Qed.

(** The script changes the host through the commands it launches and
    through nothing else: the host it leaves is the one those commands
    leave, run in the order they were launched. *)
Theorem host_changed_by_launched_steps_only
    (project_root : path) (w : World) :
  world (snd (run_script project_root w)) =
  host_after w (launched (trace (snd (run_script project_root w)))).
Proof.
  rewrite run_script_run. cbn [snd world trace].
  rewrite launched_app, launched_map_EvPrint, app_nil_r.
  apply world_setup_trace.
Qed.

(** When neither unit has its manifest, the script launches nothing,
    leaves the host as it was, prints the two warnings and then reports
    success: it completes with exit status 0 and the guidance block. *)
Theorem run_without_units_reports_success
    (project_root : path) (w : World) :
  backend_present project_root w = false ->
  frontend_present project_root w = false ->
  run_script project_root w =
    (Ret tt,
     mkState w
       (map EvPrint
          (banner :: backend_warning :: frontend_warning :: guidance_block))) /\
  exit_status (fst (run_script project_root w)) = 0%Z.
Proof.
  intros B F.
  assert (E : run_script project_root w =
              (Ret tt,
               mkState w
                 (map EvPrint
                    (banner :: backend_warning :: frontend_warning ::
                     guidance_block)))).
  { rewrite run_script_run, world_setup_trace.
    destruct (setup_trace_units project_root w) as [t1 [t2 [E [E1 E2]]]].
    rewrite B in E1. rewrite F in E2. subst t1 t2. rewrite E. reflexivity. }
  split; [exact E|]. rewrite E. reflexivity.
Qed.

End WholeRun.

Lemma run_without_units_reports_success_witness :
  @run_script scripted_host ["repo"] host_empty =
    (Ret tt,
     @mkState scripted_host host_empty
       (map EvPrint
          (banner :: backend_warning :: frontend_warning :: guidance_block))) /\
  exit_status (fst (@run_script scripted_host ["repo"] host_empty)) = 0%Z.
Proof.
  apply (@run_without_units_reports_success scripted_host ["repo"] host_empty);
    reflexivity.
Defined.

(** ** What a run prints *)

Lemma in_a_row_app_l (e1 e2 e3 : event) (a t : list event) :
  in_a_row e1 e2 e3 t -> in_a_row e1 e2 e3 (a ++ t).
Proof.
  intros [before [after E]]. exists (a ++ before)%list, after.
  rewrite E. apply app_assoc.
Qed.

Lemma in_a_row_app_r (e1 e2 e3 : event) (t b : list event) :
  in_a_row e1 e2 e3 t -> in_a_row e1 e2 e3 (t ++ b).
Proof.
  intros [before [after E]]. exists before, (after ++ b)%list.
  rewrite E, <- app_assoc. reflexivity.
Qed.

Lemma in_a_row_cons (e1 e2 e3 e : event) (t : list event) :
  in_a_row e1 e2 e3 t -> in_a_row e1 e2 e3 (e :: t).
Proof. apply (in_a_row_app_l e1 e2 e3 [e]). Qed.

(** The launch of [run_command] stands between its two lines. *)
Lemma run_command_events_in_a_row cmd cwd r c d r' :
  In (EvRun c d r') (run_command_events cmd cwd r) ->
  in_a_row (EvPrint ("Running: " ++ c)) (EvRun c d r')
           (EvPrint (status_line c r')) (run_command_events cmd cwd r).
Proof.
  unfold run_command_events, status_line. intro I.
  assert (E : EvRun c d r' = EvRun cmd cwd r).
  { destruct r as [cp|e]; simpl in I.
    - destruct (returncode cp =? 0)%Z; simpl in I;
        repeat (destruct I as [I|I]; try discriminate; try (symmetry; exact I));
        contradiction.
    - repeat (destruct I as [I|I]; try discriminate; try (symmetry; exact I));
        contradiction. }
  inversion E; subst c d r'. clear E I. exists [].
  destruct r as [cp|e]; simpl.
  - destruct (returncode cp =? 0)%Z; simpl; eexists; reflexivity.
  - eexists; reflexivity.
Qed.

Section Printed.

Context {H : Host}.

Lemma plan_trace_in_a_row (plan : list (string * step)) (w : World) c d r :
  In (EvRun c d r) (fst (plan_trace w plan)) ->
  in_a_row (EvPrint ("Running: " ++ c)) (EvRun c d r)
           (EvPrint (status_line c r)) (fst (plan_trace w plan)).
Proof.
  revert w; induction plan as [|[heading [cmd cwd]] plan IH]; intros w I.
  - destruct I.
  - rewrite plan_trace_cons in *. cbn [fst] in *.
    destruct I as [I|I]; [discriminate|]. apply in_a_row_cons.
    apply in_app_or in I. destruct I as [I|I].
    + apply in_a_row_app_r, run_command_events_in_a_row, I.
    + apply in_a_row_app_l, IH, I.
Qed.

Lemma not_in_map_EvPrint (lines : list string) c d r :
  ~ In (EvRun c d r) (map EvPrint lines).
Proof.
  intro I. apply in_map_iff in I. destruct I as [l [E _]]. discriminate.
Qed.

(** Every step a run launches is reported: in the trace its launch stands
    right after the line [Running: cmd] and right before its status line,
    which shows the check mark for exit code 0 and the cross otherwise. *)
Theorem launched_step_is_reported
    (project_root : path) (w : World) cmd cwd r :
  In (EvRun cmd cwd r) (trace (snd (run_script project_root w))) ->
  in_a_row (EvPrint ("Running: " ++ cmd)) (EvRun cmd cwd r)
           (EvPrint (status_line cmd r))
           (trace (snd (run_script project_root w))).
Proof.
  rewrite run_script_run. cbn [snd trace].
  destruct (setup_trace_units project_root w) as [t1 [t2 [E [E1 E2]]]].
  rewrite E. intro I. apply in_a_row_app_r.
  apply in_app_or in I. destruct I as [I|I];
    [|exfalso; exact (not_in_map_EvPrint _ _ _ _ I)].
  destruct I as [I|I]; [discriminate|]. apply in_a_row_cons.
  apply in_app_or in I. destruct I as [I|I].
  - apply in_a_row_app_r. subst t1.
    destruct (backend_present project_root w).
    + apply plan_trace_in_a_row, I.
    + destruct I as [I|[]]; discriminate.
  - apply in_a_row_app_l. subst t2.
    destruct (frontend_present project_root w).
    + apply plan_trace_in_a_row, I.
    + destruct I as [I|[]]; discriminate.
Qed.

End Printed.

Lemma launched_step_is_reported_witness :
  in_a_row (EvPrint "Running: npm install")
    (EvRun "npm install" (Some ["repo"; "backend"])
       (Completed (mkCompleted 1 "" "npm ERR! code E404")))
    (EvPrint "❌ npm install")
    (trace (snd (@run_script scripted_host ["repo"] host_install_fails))).
Proof.
  apply (@launched_step_is_reported scripted_host ["repo"] host_install_fails
           "npm install" (Some ["repo"; "backend"])
           (Completed (mkCompleted 1 "" "npm ERR! code E404"))).
  vm_compute. right; right; right; left. reflexivity.
Defined.

(** ** The warnings *)

Section Avoid.

Context {H : Host}.

(** A class of lines [P] that holds none of the lines of a step. *)
Variable P : string -> bool.
Hypothesis P_running : forall x, P ("Running: " ++ x) = false.
Hypothesis P_passed : forall x, P ("✅ " ++ x) = false.
Hypothesis P_failed : forall x, P ("❌ " ++ x) = false.
Hypothesis P_error : forall x, P ("Error: " ++ x) = false.

Lemma run_command_events_avoid cmd cwd r :
  Forall (fun line => P line = false) (printed (run_command_events cmd cwd r)).
Proof.
  unfold run_command_events.
  destruct r as [cp|e]; [destruct (returncode cp =? 0)%Z|];
    cbn [app printed]; repeat constructor;
    first [ apply P_running | apply P_passed | apply P_failed
          | apply P_error ].
Qed.

Lemma plan_trace_avoid (plan : list (string * step)) (w : World) :
  Forall (fun line => P line = false) (map fst plan) ->
  Forall (fun line => P line = false) (printed (fst (plan_trace w plan))).
Proof.
  revert w; induction plan as [|[heading [cmd cwd]] plan IH]; intros w N.
  - constructor.
  - rewrite plan_trace_cons. cbn [fst printed map] in *.
    inversion N as [|? ? N1 N2]; subst.
    constructor; [exact N1|]. rewrite printed_app. apply Forall_app.
    split; [apply run_command_events_avoid|apply IH, N2].
Qed.

End Avoid.

Section Warnings.

Context {H : Host}.

Lemma plan_trace_no_warning (plan : list (string * step)) (w : World) :
  no_warning (map fst plan) ->
  no_warning (printed (fst (plan_trace w plan))).
Proof.
  apply plan_trace_avoid; intro x; reflexivity.
Qed.

Lemma warning_not_in (line : string) (lines : list string) :
  warning_line line = true -> no_warning lines -> ~ In line lines.
Proof.
  intros W N I. unfold no_warning in N. rewrite Forall_forall in N.
  apply N in I. rewrite W in I. discriminate.
Qed.

Lemma unit_warning_is_warning (u : unit_name) :
  warning_line (unit_warning u) = true.
Proof. destruct u; reflexivity. Qed.

Lemma warnings_differ : backend_warning <> frontend_warning.
Proof. apply String.eqb_neq. reflexivity. Qed.

(** A run calls [print] with the warning of a unit as its argument if
    and only if it found that unit's manifest absent: the argument of no
    other [print] of the run is that warning.  (This is about the
    arguments of [print]: the standard error of a command is printed
    inside one argument, after [Error: ], and may show any text on a
    line of the console.) *)
Theorem warning_printed_iff_unit_skipped
    (project_root : path) (w : World) (u : unit_name) :
  In (unit_warning u) (printed (trace (snd (run_script project_root w)))) <->
  unit_present project_root w u = false.
Proof.
  rewrite run_script_run. cbn [snd trace].
  rewrite printed_app, printed_map_EvPrint.
  destruct (setup_trace_units project_root w) as [t1 [t2 [E [E1 E2]]]].
  rewrite E. cbn [printed]. rewrite printed_app.
  set (R := if overallSuccess_fold _ then guidance_block else [error_summary]).
  assert (NR : no_warning R).
  { subst R. destruct (overallSuccess_fold _); repeat constructor. }
  assert (N1 : backend_present project_root w = true ->
               no_warning (printed t1)).
  { intro B. rewrite B in E1. subst t1.
    apply plan_trace_no_warning. repeat constructor. }
  assert (S1 : backend_present project_root w = false ->
               printed t1 = [backend_warning]).
  { intro B. rewrite B in E1. subst t1. reflexivity. }
  assert (N2 : frontend_present project_root w = true ->
               no_warning (printed t2)).
  { intro F. rewrite F in E2. subst t2.
    apply plan_trace_no_warning. repeat constructor. }
  assert (S2 : frontend_present project_root w = false ->
               printed t2 = [frontend_warning]).
  { intro F. rewrite F in E2. subst t2. reflexivity. }
  clear E E1 E2. pose proof (unit_warning_is_warning u) as W.
  pose proof warnings_differ as D.
  assert (NB : unit_warning u <> banner).
  { destruct u; apply String.eqb_neq; reflexivity. }
  split.
  - intro I. destruct (unit_present project_root w u) eqn:U; [|reflexivity].
    exfalso. destruct I as [I|I]; [apply NB; symmetry; exact I|].
    apply in_app_or in I. destruct I as [I|I];
      [apply in_app_or in I; destruct I as [I|I]|].
    + destruct u; cbn [unit_present unit_warning] in *.
      * exact (warning_not_in _ _ W (N1 U) I).
      * destruct (backend_present project_root w).
        -- exact (warning_not_in _ _ W (N1 eq_refl) I).
        -- rewrite (S1 eq_refl) in I. destruct I as [I|[]]. exact (D I).
    + destruct u; cbn [unit_present unit_warning] in *.
      * destruct (frontend_present project_root w).
        -- exact (warning_not_in _ _ W (N2 eq_refl) I).
        -- rewrite (S2 eq_refl) in I. destruct I as [I|[]].
           exact (D (eq_sym I)).
      * exact (warning_not_in _ _ W (N2 U) I).
    + exact (warning_not_in _ _ W NR I).
  - intro U. right. apply in_or_app. left. apply in_or_app.
    destruct u; cbn [unit_present unit_warning] in *.
    + left. rewrite (S1 U). left; reflexivity.
    + right. rewrite (S2 U). left; reflexivity.
Qed.

End Warnings.

(** ** No step twice *)

Lemma unit_dirs_differ (project_root : path) :
  project_root // "backend" <> project_root // "frontend".
Proof.
  unfold path_join. intro E. apply app_inv_head in E. discriminate.
Qed.

Section NoRetry.

Context {H : Host}.

(** A run launches no step twice: the five steps differ in their command
    line or, for the two installs and the two builds, in their working
    directory, and each is launched at most once. *)
Theorem no_step_launched_twice (project_root : path) (w : World) :
  NoDup (launched (trace (snd (run_script project_root w)))).
Proof.
  rewrite launched_run_script.
  pose proof (unit_dirs_differ project_root) as D.
  destruct (backend_present project_root w),
           (frontend_present project_root w);
    unfold steps_if, backend_steps, frontend_steps; cbn [app];
    repeat (constructor;
            [ cbn [In]; intro I;
              repeat (destruct I as [I|I];
                      [ inversion I; try discriminate;
                        try (apply D; assumption)
                      | ]);
              try contradiction
            | ]);
    try constructor.
  all: try (match goal with E : _ // _ = _ // _ |- _ => exact (D E) end).
  all: try (match goal with
            | E : _ // _ = _ // _ |- _ => exact (D (eq_sym E))
            end).
Qed.

End NoRetry.

(** * Properties on a host that may refuse *)

(** ** One call of [run_command] *)

Section FallibleStep.

Context {F : Fallible.FHost}.

(** When the console accepts its lines, a call of [run_command]
    completes, with [True] exactly when [subprocess.run] returned and the
    exit code is zero. *)
Lemma fallible_run_command_run
    (CA : Fallible.console_accepts) cmd cwd (s : Fallible.State) :
  Fallible.run_command cmd cwd s =
  (Ret (PyBool (Fallible.succeeded
                  (fst (Fallible.proc_run (Fallible.world s) cmd cwd)))),
   Fallible.mkState
     (snd (Fallible.proc_run (Fallible.world s) cmd cwd))
     (Fallible.trace s ++
      Fallible.run_command_events cmd cwd
        (fst (Fallible.proc_run (Fallible.world s) cmd cwd)))).
Proof.
  unfold Fallible.run_command, try_except_Exception, bind, Fallible.print,
    Fallible.subprocess_run, Fallible.emit, ret,
    Fallible.run_command_events, Fallible.succeeded.
  rewrite CA; cbn [Fallible.world Fallible.trace].
  destruct (Fallible.proc_run (Fallible.world s) cmd cwd) as [[cp|e|code e] w'];
    cbn [fst snd Fallible.world Fallible.trace].
  - destruct (returncode cp =? 0)%Z;
      repeat (rewrite CA; cbn [Fallible.world Fallible.trace]);
      repeat rewrite <- app_assoc; reflexivity.
  - rewrite CA; cbn [Fallible.world Fallible.trace].
    repeat rewrite <- app_assoc; reflexivity.
  - rewrite CA; cbn [Fallible.world Fallible.trace].
    repeat rewrite <- app_assoc; reflexivity.
Qed.

End FallibleStep.

Section FallibleClaims.

Context {F : Fallible.FHost}.

Lemma fallible_printed_app (t u : list Fallible.event) :
  Fallible.printed (t ++ u) =
  (Fallible.printed t ++ Fallible.printed u)%list.
Proof.
  induction t as [|[line|line e|cmd cwd r] t IH]; simpl;
    [reflexivity| |exact IH|exact IH].
  now rewrite IH.
Qed.

(** C6, as amended.  On a console that accepts its lines: when
    [subprocess.run] returns, [run_command] returns [True] if and only if
    the exit code is zero, and with any other exit code it returns
    [False] and prints the captured standard error after the line of the
    failure; when [subprocess.run] raises, it returns [False], whatever
    the exit code of the process was. *)
Theorem run_command_true_iff_returned_zero
    (CA : Fallible.console_accepts) cmd cwd (s : Fallible.State) :
  let r := fst (Fallible.proc_run (Fallible.world s) cmd cwd) in
  exists b : bool,
    fst (Fallible.run_command cmd cwd s) = Ret (PyBool b) /\
    (forall cp, r = Fallible.Returned cp ->
       (b = true <-> returncode cp = 0%Z) /\
       (returncode cp <> 0%Z ->
        b = false /\
        Fallible.trace (snd (Fallible.run_command cmd cwd s)) =
        (Fallible.trace s ++
         [ Fallible.EvPrint ("Running: " ++ cmd);
           Fallible.EvRun cmd cwd (Fallible.Returned cp);
           Fallible.EvPrint ("❌ " ++ cmd);
           Fallible.EvPrint ("Error: " ++ stderr cp) ])%list)) /\
    (forall e, Fallible.raised r = Some e -> b = false).
Proof.
  intro r. subst r. rewrite (fallible_run_command_run CA).
  cbn [fst snd Fallible.trace]. eexists. split; [reflexivity|]. split.
  - intros cp E. rewrite E. cbn [Fallible.succeeded]. split; [apply Z.eqb_eq|].
    intro N. apply Z.eqb_neq in N. split; [exact N|].
    unfold Fallible.run_command_events. rewrite N. reflexivity.
  - intros e E.
    destruct (fst (Fallible.proc_run (Fallible.world s) cmd cwd));
      [discriminate|reflexivity|reflexivity].
Qed.

(** Every way [run_command] can end: it returns a boolean, or the
    [print] of its own [except] handler (line 29) raised and that
    exception leaves it.  Nothing raised under the [try], by
    [subprocess.run] or by a [print], leaves it, and it never raises
    [SystemExit]. *)
Theorem run_command_raises_only_from_handler_print
    cmd cwd (s : Fallible.State) :
  (exists b : bool, fst (Fallible.run_command cmd cwd s) = Ret (PyBool b)) \/
  (exists (e caught : Exception) (t : list Fallible.event),
     fst (Fallible.run_command cmd cwd s) = Raise (IsException e) /\
     Fallible.trace (snd (Fallible.run_command cmd cwd s)) =
     (t ++ [Fallible.EvPrintRaised
              ("❌ " ++ cmd ++ " - Exception: " ++ exc_str caught) e])%list).
Proof.
  unfold Fallible.run_command, try_except_Exception, bind, Fallible.print,
    Fallible.subprocess_run, Fallible.emit, ret.
  repeat match goal with
  | |- context [Fallible.console_rejects ?w ?l] =>
      destruct (Fallible.console_rejects w l) eqn:?;
      cbn [fst snd Fallible.world Fallible.trace]
  | |- context [Fallible.proc_run ?w ?c ?d] =>
      destruct (Fallible.proc_run w c d) as [[?|?|? ?] ?];
      cbn [fst snd Fallible.world Fallible.trace]
  | |- context [(returncode ?cp =? 0)%Z] =>
      destruct (returncode cp =? 0)%Z;
      cbn [fst snd Fallible.world Fallible.trace]
  end;
  first [ left; eexists; reflexivity
        | right; eexists _, _, _; split; reflexivity ].
Qed.

End FallibleClaims.

(** ** The first part as a special case *)

Lemma base_trace_app (t u : list Fallible.event) :
  base_trace (t ++ u) = (base_trace t ++ base_trace u)%list.
Proof.
  induction t as [|[line|line e|cmd cwd r] t IH]; simpl;
    [reflexivity| |exact IH|]; now rewrite IH.
Qed.

Lemma results_base_trace (t : list Fallible.event) :
  results (base_trace t) = map spawn_of (Fallible.results t).
Proof.
  induction t as [|[line|line e|cmd cwd r] t IH]; simpl;
    [reflexivity|exact IH|exact IH|]; now rewrite IH.
Qed.

Lemma step_succeeded_spawn_of (r : Fallible.run_result) :
  step_succeeded (spawn_of r) = Fallible.succeeded r.
Proof. destruct r; reflexivity. Qed.

Section Simulation.

Context {F : Fallible.FHost}.

Lemma simulates_ret {A} (a : A) :
  simulates (F := F) (ret a) (ret a).
Proof. intro s. reflexivity. Qed.

Lemma simulates_bind {A B}
    (c : M Fallible.State A) (c' : M (@State (to_host F)) A)
    (k : A -> M Fallible.State B) (k' : A -> M (@State (to_host F)) B) :
  simulates c c' -> (forall a, simulates (k a) (k' a)) ->
  simulates (bind c k) (bind c' k').
Proof.
  intros C K s. unfold bind. rewrite C.
  destruct (c s) as [[a|e] s1]; cbn [fst snd]; [apply K|reflexivity].
Qed.

Lemma simulates_try {A}
    (c : M Fallible.State A) (c' : M (@State (to_host F)) A)
    (h : Exception -> M Fallible.State A)
    (h' : Exception -> M (@State (to_host F)) A) :
  simulates c c' -> (forall e, simulates (h e) (h' e)) ->
  simulates (try_except_Exception c h) (try_except_Exception c' h').
Proof.
  intros C K s. unfold try_except_Exception. rewrite C.
  destruct (c s) as [[a|[e|code]] s1]; cbn [fst snd];
    [reflexivity|apply K|reflexivity].
Qed.

Lemma simulates_sys_exit {A} (code : Z) :
  simulates (A := A) (Fallible.sys_exit code) (@sys_exit (to_host F) A code).
Proof. intro s. reflexivity. Qed.

Lemma simulates_subprocess_run cmd cwd :
  simulates (Fallible.subprocess_run cmd cwd)
            (@subprocess_run (to_host F) cmd cwd).
Proof.
  intro s. unfold subprocess_run, Fallible.subprocess_run, base_state.
  cbn [world trace os_run to_host].
  destruct (Fallible.proc_run (Fallible.world s) cmd cwd) as [[cp|e|code e] w'];
    cbn [fst snd spawn_of Fallible.world Fallible.trace];
    rewrite base_trace_app; reflexivity.
Qed.

Hypothesis CA : Fallible.console_accepts.

Lemma simulates_print line :
  simulates (Fallible.print line) (@print (to_host F) line).
Proof.
  intro s. unfold Fallible.print, print, emit, Fallible.emit, base_state.
  rewrite CA. cbn [fst snd world trace Fallible.world Fallible.trace].
  rewrite base_trace_app. reflexivity.
Qed.

Lemma simulates_run_command cmd cwd :
  simulates (Fallible.run_command cmd cwd) (@run_command (to_host F) cmd cwd).
Proof.
  apply simulates_try.
  - apply simulates_bind; [apply simulates_print|intros _].
    apply simulates_bind; [apply simulates_subprocess_run|intro cp].
    destruct (returncode cp =? 0)%Z;
      repeat first [ apply simulates_ret | apply simulates_print
                   | apply simulates_bind | intros _ ].
  - intro e.
    apply simulates_bind; [apply simulates_print|intros _; apply simulates_ret].
Qed.

Hypothesis CK : Fallible.checks_answer.

Lemma simulates_exists p :
  simulates (Fallible.exists_ p) (@exists_ (to_host F) p).
Proof.
  intro s. unfold Fallible.exists_, exists_, base_state.
  cbn [world path_exists to_host].
  destruct (CK (Fallible.world s) p) as [b E]. rewrite E. reflexivity.
Qed.

Lemma simulates_manifest_check dir :
  simulates (Fallible.manifest_check dir) (@manifest_check (to_host F) dir).
Proof.
  apply simulates_bind; [apply simulates_exists|intros [|]];
    [apply simulates_exists|apply simulates_ret].
Qed.

Ltac simulate :=
  repeat first [ apply simulates_ret | apply simulates_print
               | apply simulates_run_command | apply simulates_manifest_check
               | apply simulates_sys_exit
               | apply simulates_bind | intro ].

Lemma simulates_backend_unit project_root success :
  simulates (Fallible.backend_unit project_root success)
            (@backend_unit (to_host F) project_root success).
Proof.
  apply simulates_bind; [apply simulates_manifest_check|intros [|]]; simulate.
Qed.

Lemma simulates_frontend_unit project_root success :
  simulates (Fallible.frontend_unit project_root success)
            (@frontend_unit (to_host F) project_root success).
Proof.
  apply simulates_bind; [apply simulates_manifest_check|intros [|]]; simulate.
Qed.

Lemma simulates_setup_units project_root :
  simulates (Fallible.setup_units project_root)
            (@setup_units (to_host F) project_root).
Proof.
  apply simulates_bind; [apply simulates_print|intros _].
  apply simulates_bind; [apply simulates_backend_unit|intro v].
  apply simulates_bind; [apply simulates_frontend_unit|intro v'].
  apply simulates_ret.
Qed.

Lemma simulates_report success :
  simulates (Fallible.report success) (@report (to_host F) success).
Proof.
  unfold Fallible.report, report. destruct (py_truthy success); simulate.
Qed.

(** On a host whose console accepts every line and whose checks answer,
    [main] does what the first part says it does. *)
Lemma simulates_main project_root :
  simulates (Fallible.main project_root) (@main (to_host F) project_root).
Proof.
  apply simulates_bind; [apply simulates_setup_units|intro v].
  apply simulates_report.
Qed.

End Simulation.

(** ** Exceptions and the exit of the script *)

Section FallibleRun.

Context {F : Fallible.FHost}.

Lemma fallible_setup_units_base
    (CA : Fallible.console_accepts) (CK : Fallible.checks_answer)
    (project_root : path) (w : Fallible.FWorld) :
  @setup_units (to_host F) project_root (@initial (to_host F) w) =
  (fst (Fallible.setup_units project_root (Fallible.initial w)),
   base_state (snd (Fallible.setup_units project_root (Fallible.initial w)))).
Proof.
  exact (simulates_setup_units CA CK project_root (Fallible.initial w)).
Qed.

Lemma fallible_run_script_base
    (CA : Fallible.console_accepts) (CK : Fallible.checks_answer)
    (project_root : path) (w : Fallible.FWorld) :
  @run_script (to_host F) project_root w =
  (fst (Fallible.run_script project_root w),
   base_state (snd (Fallible.run_script project_root w))).
Proof.
  exact (simulates_main CA CK project_root (Fallible.initial w)).
Qed.

(** C4, as amended.  On a console that accepts every line, no exception
    leaves [run_command]: every call returns a boolean, and an exception
    [subprocess.run] raises, because the command cannot be launched or
    because its output is rejected, is caught, printed with its text and
    turned into [False].  When the checks of [Path.exists] answer as
    well, the sequencer completes and the only exception that leaves
    [main] is the [SystemExit] of its own [sys.exit(1)]. *)
Theorem run_command_catches_on_accepting_console
    (CA : Fallible.console_accepts) :
  (forall cmd cwd (s : Fallible.State),
     exists (b : bool) (s' : Fallible.State),
       Fallible.run_command cmd cwd s = (Ret (PyBool b), s') /\
       forall e,
         Fallible.raised
           (fst (Fallible.proc_run (Fallible.world s) cmd cwd)) = Some e ->
         b = false /\
         Fallible.trace s' =
         (Fallible.trace s ++
          [ Fallible.EvPrint ("Running: " ++ cmd);
            Fallible.EvRun cmd cwd
              (fst (Fallible.proc_run (Fallible.world s) cmd cwd));
            Fallible.EvPrint
              ("❌ " ++ cmd ++ " - Exception: " ++ exc_str e) ])%list) /\
  (Fallible.checks_answer ->
   forall project_root (w : Fallible.FWorld),
     (exists b : bool,
        fst (Fallible.setup_units project_root (Fallible.initial w)) =
        Ret (PyBool b)) /\
     (fst (Fallible.run_script project_root w) = Ret tt \/
      fst (Fallible.run_script project_root w) = Raise (SystemExit 1))).
Proof.
  split.
  - intros cmd cwd s. rewrite (fallible_run_command_run CA).
    eexists _, _. split; [reflexivity|].
    intros e E. cbn [Fallible.trace].
    destruct (fst (Fallible.proc_run (Fallible.world s) cmd cwd))
      as [cp|e'|code e']; cbn [Fallible.raised] in E;
      [discriminate| |]; inversion E; subst e'; split; reflexivity.
  - intros CK project_root w. split.
    + pose proof (fallible_setup_units_base CA CK project_root w) as S.
      rewrite setup_units_run in S. apply (f_equal fst) in S.
      cbn [fst] in S. rewrite <- S. unfold returned.
      rewrite <- (map_map step_succeeded PyBool), accumulate_bool.
      eexists; reflexivity.
    + pose proof (fallible_run_script_base CA CK project_root w) as S.
      rewrite run_script_run in S. apply (f_equal fst) in S.
      cbn [fst] in S. rewrite <- S.
      destruct (overallSuccess_fold _); [left|right]; reflexivity.
Qed.

(** When the console accepts every line and the checks answer, [main]
    returns exactly when every call of [subprocess.run] returned with
    exit code 0, and raises [SystemExit(1)] exactly when some call
    returned another code or raised. *)
Theorem main_returns_iff_all_steps_succeeded
    (CA : Fallible.console_accepts) (CK : Fallible.checks_answer)
    (project_root : path) (w : Fallible.FWorld) :
  let script := Fallible.run_script project_root w in
  (fst script = Ret tt <->
   forall r, In r (Fallible.results (Fallible.trace (snd script))) ->
             Fallible.succeeded r = true) /\
  (fst script = Raise (SystemExit 1) <->
   exists r, In r (Fallible.results (Fallible.trace (snd script))) /\
             Fallible.succeeded r = false).
Proof.
  intro script. subst script.
  pose proof (fallible_run_script_base CA CK project_root w) as S.
  rewrite run_script_run in S.
  pose proof (f_equal fst S) as S1. pose proof (f_equal snd S) as S2.
  cbn [fst snd] in S1, S2. clear S. rewrite <- S1.
  apply (f_equal (fun s => results (trace s))) in S2.
  unfold base_state in S2. cbn [trace] in S2.
  rewrite results_app, results_map_EvPrint, app_nil_r in S2.
  rewrite results_base_trace in S2. rewrite S2. clear S1 S2.
  set (rs := Fallible.results
               (Fallible.trace (snd (Fallible.run_script project_root w)))).
  rewrite map_map.
  pose proof (overallSuccess_fold_true
                (map (fun r => step_succeeded (spawn_of r)) rs)) as T.
  pose proof (overallSuccess_fold_false
                (map (fun r => step_succeeded (spawn_of r)) rs)) as N.
  assert (T' : overallSuccess_fold
                 (map (fun r => step_succeeded (spawn_of r)) rs) = true <->
               forall r, In r rs -> Fallible.succeeded r = true).
  { rewrite T. split.
    - intros A r I. rewrite <- step_succeeded_spawn_of.
      apply A. apply in_map_iff. exists r. split; [reflexivity|exact I].
    - intros A b I. apply in_map_iff in I. destruct I as [r [E I]].
      subst b. rewrite step_succeeded_spawn_of. apply A, I. }
  assert (N' : overallSuccess_fold
                 (map (fun r => step_succeeded (spawn_of r)) rs) = false <->
               exists r, In r rs /\ Fallible.succeeded r = false).
  { rewrite N, in_map_iff. split; intros [r [A B]]; exists r.
    - rewrite <- step_succeeded_spawn_of. tauto.
    - rewrite step_succeeded_spawn_of. tauto. }
  destruct (overallSuccess_fold
              (map (fun r => step_succeeded (spawn_of r)) rs)); split.
  - split; [intros _; apply T'; reflexivity|reflexivity].
  - split; [discriminate|]. intro E. apply N' in E. discriminate.
  - split; [discriminate|]. intro A. apply T' in A. discriminate.
  - split; [intros _; apply N'; reflexivity|reflexivity].
Qed.

End FallibleRun.

(** When [subprocess.run] returns and the console accepts every line,
    what [run_command] returns and prints depends on the exit code and,
    when that is not zero, on the captured standard error, and on nothing
    else: the captured standard output is never printed, and the standard
    error of a step that exited with code 0 is not printed either. *)
Theorem run_command_output_depends_on_code_and_stderr
    (F1 F2 : Fallible.FHost)
    (CA1 : @Fallible.console_accepts F1) (CA2 : @Fallible.console_accepts F2)
    cmd cwd1 cwd2
    (s1 : @Fallible.State F1) (s2 : @Fallible.State F2)
    (cp1 cp2 : CompletedProcess)
    (w1 : @Fallible.FWorld F1) (w2 : @Fallible.FWorld F2) :
  Fallible.proc_run (Fallible.world s1) cmd cwd1 = (Fallible.Returned cp1, w1) ->
  Fallible.proc_run (Fallible.world s2) cmd cwd2 = (Fallible.Returned cp2, w2) ->
  returncode cp1 = returncode cp2 ->
  (returncode cp1 <> 0%Z -> stderr cp1 = stderr cp2) ->
  Fallible.printed (Fallible.trace s1) = Fallible.printed (Fallible.trace s2) ->
  fst (Fallible.run_command cmd cwd1 s1) =
  fst (Fallible.run_command cmd cwd2 s2) /\
  Fallible.printed (Fallible.trace (snd (Fallible.run_command cmd cwd1 s1))) =
  Fallible.printed (Fallible.trace (snd (Fallible.run_command cmd cwd2 s2))).
Proof.
  intros E1 E2 RC SE PT.
  rewrite (fallible_run_command_run CA1), (fallible_run_command_run CA2).
  rewrite E1, E2. cbn [fst snd Fallible.trace Fallible.succeeded].
  rewrite !fallible_printed_app, PT.
  unfold Fallible.run_command_events. rewrite <- RC.
  cbn [app Fallible.printed].
  destruct (returncode cp1 =? 0)%Z eqn:Z0.
  - split; reflexivity.
  - apply Z.eqb_neq in Z0. rewrite (SE Z0). split; reflexivity.
Qed.

(** ** Runs on the scripted host that may refuse *)

(** C4, the claim as it was stated fails: the command cannot be launched,
    the exception is caught, and on a console that encodes ASCII only the
    handler's own [print] raises; that exception leaves [run_command]. *)
Lemma run_command_handler_print_raises :
  @Fallible.run_command Fallible.scripted_host
    "npm install" (Some ["repo"; "backend"])
    (@Fallible.initial Fallible.scripted_host Fallible.host_ascii_no_launch) =
  (Raise (IsException Fallible.UnicodeEncodeError),
   @Fallible.mkState Fallible.scripted_host
     (Fallible.mkScripted true both_units [] [])
     [ Fallible.EvPrint "Running: npm install";
       Fallible.EvRun "npm install" (Some ["repo"; "backend"])
         (Fallible.NotLaunched Fallible.FileNotFoundError);
       Fallible.EvPrintRaised
         "❌ npm install - Exception: [Errno 2] No such file or directory"
         Fallible.UnicodeEncodeError ]).
Proof. reflexivity. Qed.

(** C6, the claim as it was stated fails: the process exits with code 0,
    what it wrote is not UTF-8, [subprocess.run] raises and [run_command]
    returns [False]. *)
Lemma run_command_false_at_exit_code_zero :
  Fallible.exit_code
    (fst (Fallible.scripted_run Fallible.host_undecodable_output
            "npm install" (Some ["repo"; "backend"]))) = Some 0%Z /\
  @Fallible.run_command Fallible.scripted_host
    "npm install" (Some ["repo"; "backend"])
    (@Fallible.initial Fallible.scripted_host
       Fallible.host_undecodable_output) =
  (Ret (PyBool false),
   @Fallible.mkState Fallible.scripted_host
     (Fallible.mkScripted false both_units [] [])
     [ Fallible.EvPrint "Running: npm install";
       Fallible.EvRun "npm install" (Some ["repo"; "backend"])
         (Fallible.OutputRejected 0 Fallible.UnicodeDecodeError);
       Fallible.EvPrint
         "❌ npm install - Exception: 'utf-8' codec can't decode byte 0xff in position 0: invalid start byte" ]).
Proof. split; reflexivity. Qed.

(** All five processes exit with code 0, the output of the first is not
    UTF-8: [main] raises [SystemExit(1)]. *)
Example scenario_undecodable_output :
  map Fallible.exit_code
    (Fallible.results
       (Fallible.trace
          (snd (@Fallible.run_script Fallible.scripted_host ["repo"]
                  Fallible.host_undecodable_output)))) =
    [Some 0%Z; Some 0%Z; Some 0%Z; Some 0%Z; Some 0%Z] /\
  fst (@Fallible.run_script Fallible.scripted_host ["repo"]
         Fallible.host_undecodable_output) = Raise (SystemExit 1).
Proof. vm_compute. split; reflexivity. Qed.

(** The check of the frontend directory is refused: the exception leaves
    [main], after the three steps of the backend. *)
Example scenario_check_refused :
  fst (@Fallible.run_script Fallible.scripted_host ["repo"]
         Fallible.host_frontend_denied) =
    Raise (IsException Fallible.PermissionError) /\
  List.length
    (Fallible.results
       (Fallible.trace
          (snd (@Fallible.run_script Fallible.scripted_host ["repo"]
                  Fallible.host_frontend_denied)))) = 3.
Proof. vm_compute. split; reflexivity. Qed.

(** On a console that encodes ASCII only the banner is refused: [main]
    raises before it checks or launches anything. *)
Example scenario_ascii_console :
  @Fallible.run_script Fallible.scripted_host ["repo"]
    (Fallible.mkScripted true both_units [] []) =
  (Raise (IsException Fallible.UnicodeEncodeError),
   @Fallible.mkState Fallible.scripted_host
     (Fallible.mkScripted true both_units [] [])
     [ Fallible.EvPrintRaised banner Fallible.UnicodeEncodeError ]).
Proof. reflexivity. Qed.

(** *** The theorems with a hypothesis, on a host of the first part *)

Lemma of_host_console_accepts (H : Host) :
  @Fallible.console_accepts (Fallible.of_host H).
Proof. intros w line. reflexivity. Defined.

Lemma of_host_checks_answer (H : Host) :
  @Fallible.checks_answer (Fallible.of_host H).
Proof. intros w p. exists (@path_exists H w p). reflexivity. Defined.

Lemma run_command_catches_on_accepting_console_witness :
  exists (b : bool) (s' : @Fallible.State (Fallible.of_host scripted_host)),
    @Fallible.run_command (Fallible.of_host scripted_host)
      "npm install" (Some ["repo"; "backend"])
      (@Fallible.initial (Fallible.of_host scripted_host)
         (mkScripted both_units [no_shell])) = (Ret (PyBool b), s') /\
    b = false /\
    Fallible.trace s' =
    [ Fallible.EvPrint "Running: npm install";
      Fallible.EvRun "npm install" (Some ["repo"; "backend"])
        (Fallible.NotLaunched
           (mkException OSError "[Errno 2] No such file or directory"));
      Fallible.EvPrint
        "❌ npm install - Exception: [Errno 2] No such file or directory" ].
Proof.
  destruct (@run_command_catches_on_accepting_console
              (Fallible.of_host scripted_host)
              (of_host_console_accepts scripted_host)) as [R _].
  destruct (R "npm install" (Some ["repo"; "backend"])
              (@Fallible.initial (Fallible.of_host scripted_host)
                 (mkScripted both_units [no_shell]))) as [b [s' [E L]]].
  exists b, s'. split; [exact E|].
  apply (L (mkException OSError "[Errno 2] No such file or directory")).
  reflexivity.
Defined.

Lemma run_command_true_iff_returned_zero_witness :
  exists b : bool,
    fst (@Fallible.run_command (Fallible.of_host scripted_host)
           "npm run build" (Some ["repo"; "frontend"])
           (@Fallible.initial (Fallible.of_host scripted_host)
              (mkScripted both_units [exits 2 "build failed"]))) =
    Ret (PyBool b) /\
    b = false.
Proof.
  destruct (@run_command_true_iff_returned_zero
              (Fallible.of_host scripted_host)
              (of_host_console_accepts scripted_host)
              "npm run build" (Some ["repo"; "frontend"])
              (@Fallible.initial (Fallible.of_host scripted_host)
                 (mkScripted both_units [exits 2 "build failed"])))
    as [b [E [R _]]].
  exists b. split; [exact E|].
  destruct (R (mkCompleted 2 "" "build failed") eq_refl) as [_ N].
  apply N. discriminate.
Defined.

Lemma main_returns_iff_all_steps_succeeded_witness :
  fst (@Fallible.run_script (Fallible.of_host scripted_host) ["repo"]
         host_install_fails) = Raise (SystemExit 1).
Proof.
  destruct (@main_returns_iff_all_steps_succeeded
              (Fallible.of_host scripted_host)
              (of_host_console_accepts scripted_host)
              (of_host_checks_answer scripted_host)
              ["repo"] host_install_fails) as [_ [_ B]].
  apply B.
  exists (Fallible.Returned (mkCompleted 1 "" "npm ERR! code E404")).
  split; [vm_compute; left; reflexivity|reflexivity].
Defined.

Lemma run_command_output_depends_on_code_and_stderr_witness :
  fst (@Fallible.run_command (Fallible.of_host scripted_host)
         "npm install" (Some ["repo"; "backend"])
         (@Fallible.initial (Fallible.of_host scripted_host)
            (mkScripted both_units
               [ (Completed (mkCompleted 0 "added 212 packages"
                               "npm WARN deprecated"), None) ]))) =
  fst (@Fallible.run_command (Fallible.of_host scripted_host)
         "npm install" (Some ["repo"; "frontend"])
         (@Fallible.initial (Fallible.of_host scripted_host) host_all_pass)) /\
  Fallible.printed
    (Fallible.trace
       (snd (@Fallible.run_command (Fallible.of_host scripted_host)
               "npm install" (Some ["repo"; "backend"])
               (@Fallible.initial (Fallible.of_host scripted_host)
                  (mkScripted both_units
                     [ (Completed (mkCompleted 0 "added 212 packages"
                                     "npm WARN deprecated"), None) ]))))) =
  Fallible.printed
    (Fallible.trace
       (snd (@Fallible.run_command (Fallible.of_host scripted_host)
               "npm install" (Some ["repo"; "frontend"])
               (@Fallible.initial (Fallible.of_host scripted_host)
                  host_all_pass)))).
Proof.
  apply (run_command_output_depends_on_code_and_stderr
           (Fallible.of_host scripted_host) (Fallible.of_host scripted_host)
           (of_host_console_accepts scripted_host)
           (of_host_console_accepts scripted_host)
           "npm install"
           (Some ["repo"; "backend"]) (Some ["repo"; "frontend"])
           (@Fallible.initial (Fallible.of_host scripted_host)
              (mkScripted both_units
                 [ (Completed (mkCompleted 0 "added 212 packages"
                                 "npm WARN deprecated"), None) ]))
           (@Fallible.initial (Fallible.of_host scripted_host) host_all_pass)
           (mkCompleted 0 "added 212 packages" "npm WARN deprecated")
           (mkCompleted 0 "" "")
           (mkScripted both_units []) host_all_pass).
  - reflexivity.
  - reflexivity.
  - reflexivity.
  - intro N. exfalso. apply N. reflexivity.
  - reflexivity.
Defined.
